(** * Sparkify ETL (etl.py): a shallow embedding and its properties

    The development follows [etl.py]: [process_song_file],
    [process_log_file] and [process_data] are embedded as functions that
    thread a database cursor and record every statement they execute.
    The library calls the script relies on (the pandas [dt] accessors, the
    DataFrame selections, the psycopg2 cursor) are embedded by their
    documented behaviour in the modules [Calendar], [Pandas] and [Psycopg2]. *)

From Stdlib Require Import ZArith List String Bool Lia QArith.
Import ListNotations.

Local Open Scope string_scope.
Local Open Scope list_scope.
Local Open Scope Z_scope.

(* ================================================================== *)
(** ** The proleptic Gregorian calendar behind [Series.dt] *)
(* ================================================================== *)

Module Calendar.

(** Days before January 1st of [year] (ordinal of December 31st of the
    preceding year); ordinal 1 is 0001-01-01. *)
Definition days_before_year (year : Z) : Z :=
  let y := year - 1 in
  y * 365 + y / 4 - y / 100 + y / 400.

Definition is_leap (year : Z) : bool :=
  (year mod 4 =? 0) && (negb (year mod 100 =? 0) || (year mod 400 =? 0)).

Definition days_in_year (year : Z) : Z :=
  if is_leap year then 366 else 365.

(** Days in the months before [month] in a common year. *)
Definition days_before_month_common (month : Z) : Z :=
  match month with
  | 1 => 0 | 2 => 31 | 3 => 59 | 4 => 90 | 5 => 120 | 6 => 151
  | 7 => 181 | 8 => 212 | 9 => 243 | 10 => 273 | 11 => 304 | _ => 334
  end.

Definition days_in_month_common (month : Z) : Z :=
  match month with
  | 2 => 28
  | 4 | 6 | 9 | 11 => 30
  | _ => 31
  end.

Definition days_before_month (year month : Z) : Z :=
  days_before_month_common month
  + (if (2 <? month) && is_leap year then 1 else 0).

Definition ymd2ord (year month day : Z) : Z :=
  days_before_year year + days_before_month year month + day.

Definition DI400Y : Z := 146097.
Definition DI100Y : Z := 36524.
Definition DI4Y : Z := 1461.

(** Ordinal to (year, month, day), by the 400/100/4/1-year cycles. *)
Definition ord2ymd (ordinal : Z) : Z * Z * Z :=
  let n := ordinal - 1 in
  let n400 := n / DI400Y in
  let n := n mod DI400Y in
  let year := n400 * 400 + 1 in
  let n100 := n / DI100Y in
  let n := n mod DI100Y in
  let n4 := n / DI4Y in
  let n := n mod DI4Y in
  let n1 := n / 365 in
  let n := n mod 365 in
  let year := year + n100 * 100 + n4 * 4 + n1 in
  if (n1 =? 4) || (n100 =? 4) then (year - 1, 12, 31)
  else
    let leapyear := (n1 =? 3) && (negb (n4 =? 24) || (n100 =? 3)) in
    let month := (n + 50) / 32 in
    let preceding :=
      days_before_month_common month
      + (if (2 <? month) && leapyear then 1 else 0) in
    if n <? preceding then
      let month' := month - 1 in
      let preceding' :=
        preceding
        - (days_in_month_common month'
           + (if (month' =? 2) && leapyear then 1 else 0)) in
      (year, month', n - preceding' + 1)
    else (year, month, n - preceding + 1).

Definition year_of (ordinal : Z) : Z := fst (fst (ord2ymd ordinal)).
Definition month_of (ordinal : Z) : Z := snd (fst (ord2ymd ordinal)).
Definition day_of_month (ordinal : Z) : Z := snd (ord2ymd ordinal).

(** Monday is 0, Sunday is 6. *)
Definition weekday (ordinal : Z) : Z := (ordinal + 6) mod 7.

Definition THURSDAY : Z := 3.

(** Ordinal of the Monday that starts ISO week 1 of [year]. *)
Definition isoweek1monday (year : Z) : Z :=
  let firstday := ymd2ord year 1 1 in
  let firstweekday := (firstday + 6) mod 7 in
  let week1monday := firstday - firstweekday in
  if THURSDAY <? firstweekday then week1monday + 7 else week1monday.

(** (ISO year, ISO week, ISO weekday) of a date. *)
Definition isocalendar (ordinal : Z) : Z * Z * Z :=
  let year := year_of ordinal in
  let week1monday := isoweek1monday year in
  let week := (ordinal - week1monday) / 7 in
  let day := (ordinal - week1monday) mod 7 in
  if week <? 0 then
    let year := year - 1 in
    let week1monday := isoweek1monday year in
    (year, (ordinal - week1monday) / 7 + 1, (ordinal - week1monday) mod 7 + 1)
  else if (52 <=? week) && (isoweek1monday (year + 1) <=? ordinal) then
    (year + 1, 1, day + 1)
  else (year, week + 1, day + 1).

(** *** ISO-8601 week numbering, as the standard words it

    Week 1 of a year is the Monday-to-Sunday week that contains the
    first Thursday of that year; a date belongs to the ISO year whose
    week 1 starts on or before it and whose successor's week 1 starts
    after it, and its week number counts the weeks from that week 1. *)

(** The first day on or after January 1st of [year] that is a Thursday. *)
Definition first_thursday (year : Z) : Z :=
  let jan1 := ymd2ord year 1 1 in
  jan1 + (THURSDAY - weekday jan1) mod 7.

Definition iso_week1_start (year : Z) : Z :=
  first_thursday year - THURSDAY.

Definition iso8601_week_date (ordinal iso_year iso_week : Z) : Prop :=
  iso_week1_start iso_year <= ordinal < iso_week1_start (iso_year + 1)
  /\ iso_week = (ordinal - iso_week1_start iso_year) / 7 + 1.

End Calendar.

(* ================================================================== *)
(** ** DataFrames as [pd.read_json(..., lines=True)] builds them *)
(* ================================================================== *)

Module Pandas.

(** A cell of a DataFrame.  [Null] is the missing value ([None]/[NaN]: a
    JSON [null] or a key absent from the line), [NaT] the missing
    timestamp.  A [Float] carries the exact rational value of the finite
    double, so that [==] on floats is equality of those rationals; a
    [Timestamp] carries milliseconds since the epoch (the unit of the
    log's [ts] field). *)
Inductive value : Type :=
| Null
| Str (s : string)
| Int (n : Z)
| Float (q : Q)
| Timestamp (ms : Z)
| NaT.

(** Exceptions that no [except] clause of the script catches. *)
Inductive exn : Type :=
| KeyError (label : string)
| AttributeError (name : string)
| ValueError
| OutOfBoundsDatetime.

(** One line of the file: a JSON object. *)
Definition row : Type := list (string * value).

(** A frame keeps its column labels apart from its rows, so that filtering
    rows leaves the columns in place; every row carries its index label
    (the line number [read_json] gave it), which filters preserve. *)
Record DataFrame : Type := mkDataFrame {
  columns : list string;
  rows : list (Z * row)
}.

(** [row[c]]: a key absent from the line reads as the missing value. *)
Fixpoint get (r : row) (c : string) : value :=
  match r with
  | [] => Null
  | (k, v) :: r' => if String.eqb k c then v else get r' c
  end.

Definition set (r : row) (c : string) (v : value) : row := (c, v) :: r.

Definition has_column (cols : list string) (c : string) : bool :=
  existsb (String.eqb c) cols.

(** [pd.isna]. *)
Definition isna (v : value) : bool :=
  match v with
  | Null | NaT => true
  | _ => false
  end.

(** Elementwise [series == s] and [series != s] against a [str]. *)
Definition eq_str (v : value) (s : string) : bool :=
  match v with
  | Str s' => String.eqb s' s
  | _ => false
  end.

Definition ne_str (v : value) (s : string) : bool := negb (eq_str v s).

(** [df[[c1, ..., cn]]]: [None] stands for the [KeyError] raised when a
    label is not a column. *)
Definition getitem_columns (df : DataFrame) (cols : list string)
  : option DataFrame :=
  if forallb (has_column (columns df)) cols
  then Some (mkDataFrame cols
               (map (fun ir => (fst ir, map (fun c => (c, get (snd ir) c)) cols))
                    (rows df)))
  else None.

(** [df[mask]] with the mask computed row by row. *)
Definition boolean_mask (df : DataFrame) (mask : row -> bool) : DataFrame :=
  mkDataFrame (columns df) (filter (fun ir => mask (snd ir)) (rows df)).

(** The cells of a row in column order ([list(row)], [.tolist()]). *)
Definition tolist (cols : list string) (r : row) : list value :=
  map (get r) cols.

(** [df.values[0].tolist()]: [None] stands for the [IndexError] of an
    empty frame. *)
Definition values0_tolist (df : DataFrame) : option (list value) :=
  match rows df with
  | [] => None
  | (_, r) :: _ => Some (tolist (columns df) r)
  end.

(** [df.dropna(axis=0, subset=cols)]: [None] stands for the [KeyError] of
    a label that is not a column. *)
Definition dropna (df : DataFrame) (subset : list string) : option DataFrame :=
  if forallb (has_column (columns df)) subset
  then Some (boolean_mask df
               (fun r => forallb (fun c => negb (isna (get r c))) subset))
  else None.

(** Bounds of a nanosecond [datetime64], in milliseconds. *)
Definition max_timestamp_ms : Z := 9223372036854.

(** An integer cell that fits a signed 64-bit word and is not the word
    pandas reserves for [NaT], the least one. *)
Definition int64_ms (ms : Z) : Prop := - 2 ^ 63 < ms < 2 ^ 63.

(** [pd.to_datetime(series, unit="ms")] on one cell.  The [ts] field of a
    log line is an integer number of milliseconds: within the
    representable range it becomes a timestamp, and a missing value
    becomes [NaT].  The embedding covers these cells: a missing value and
    an integer that fits a signed 64-bit word (see [int64_ms]).  What
    pandas does with a cell of another kind (a text, a fraction, an
    integer beyond 64 bits) depends on the dtype it infers for the whole
    column; here such a cell is taken to raise, and the properties below
    that speak of a conversion that raises are stated for 64-bit integers
    only. *)
Definition to_datetime_ms (v : value) : exn + value :=
  match v with
  | Int ms =>
      if (- max_timestamp_ms <=? ms) && (ms <=? max_timestamp_ms)
      then inr (Timestamp ms) else inl OutOfBoundsDatetime
  | Null | NaT => inr NaT
  | Timestamp ms => inr (Timestamp ms)
  | Str _ | Float _ => inl ValueError
  end.

(** The cell that the conversion writes, when it does not raise. *)
Definition converted_cell (v : value) : value :=
  match to_datetime_ms v with
  | inr v' => v'
  | inl _ => Null
  end.

(** [df[c] = pd.to_datetime(df[c], unit="ms")], row by row. *)
Fixpoint convert_column (c : string) (rs : list (Z * row))
  : exn + list (Z * row) :=
  match rs with
  | [] => inr []
  | (i, r) :: rs' =>
      match to_datetime_ms (get r c) with
      | inl e => inl e
      | inr v =>
          match convert_column c rs' with
          | inl e => inl e
          | inr rs'' => inr ((i, set r c v) :: rs'')
          end
      end
  end.

Definition MS_PER_DAY : Z := 86400000.
Definition MS_PER_HOUR : Z := 3600000.
Definition EPOCH_ORDINAL : Z := 719163.

(** Ordinal of the calendar date of a timestamp. *)
Definition toordinal (ms : Z) : Z := ms / MS_PER_DAY + EPOCH_ORDINAL.

(** The [Series.dt] accessors the script reads, on one cell. *)
Definition dt (f : Z -> Z) (v : value) : value :=
  match v with
  | Timestamp ms => Int (f ms)
  | _ => Null
  end.

Definition dt_hour : value -> value :=
  dt (fun ms => (ms mod MS_PER_DAY) / MS_PER_HOUR).
Definition dt_month : value -> value :=
  dt (fun ms => Calendar.month_of (toordinal ms)).
Definition dt_weekday : value -> value :=
  dt (fun ms => Calendar.weekday (toordinal ms)).
Definition dt_day : value -> value :=
  dt (fun ms => Calendar.day_of_month (toordinal ms)).
Definition dt_isocalendar_year : value -> value :=
  dt (fun ms => fst (fst (Calendar.isocalendar (toordinal ms)))).
Definition dt_isocalendar_week : value -> value :=
  dt (fun ms => snd (fst (Calendar.isocalendar (toordinal ms)))).
Definition dt_isocalendar_day : value -> value :=
  dt (fun ms => snd (Calendar.isocalendar (toordinal ms))).

End Pandas.

(* ================================================================== *)
(** ** The database cursor *)
(* ================================================================== *)

Module Psycopg2.
Import Pandas.

(** The statements of [sql_queries] that the script executes. *)
Inductive query : Type :=
| artist_table_insert
| song_table_insert
| time_table_insert
| user_table_insert
| songplay_table_insert
| song_select.

(** The state behind a cursor: the five tables (each row is the parameter
    list of the insert that created it), the rows of the last [SELECT]
    not yet fetched, and, for each coming [execute], whether the server
    answers it with a [psycopg2.Error]. *)
Record cursor : Type := mkCursor {
  artists : list (list value);
  songs : list (list value);
  time : list (list value);
  users : list (list value);
  songplays : list (list value);
  results : list (value * value);
  faults : list bool
}.

(** SQL [=]: never true on a NULL operand; numbers compare by value. *)
Definition sql_eq (a b : value) : bool :=
  match a, b with
  | Str x, Str y => String.eqb x y
  | Int x, Int y => x =? y
  | Float x, Float y => Qeq_bool x y
  | Int x, Float y => Qeq_bool (inject_Z x) y
  | Float x, Int y => Qeq_bool x (inject_Z y)
  | Timestamp x, Timestamp y => x =? y
  | _, _ => false
  end.

Definition field (n : nat) (r : list value) : value := nth n r Null.

(** Modelled from the spec: the text of the insert statements is in
    [sql_queries.py], which is not part of the sources.  Section 4.5 gives
    their conflict policy: a dimension insert whose natural key (the first
    column) is already present is ignored, except that a user insert
    overwrites the stored [level] (the fifth column); a fact insert always
    adds a row. *)
Definition insert_or_ignore (table : list (list value)) (r : list value)
  : list (list value) :=
  if existsb (fun r' => sql_eq (field 0 r') (field 0 r)) table
  then table else table ++ [r].

Definition set_level (level : value) (r : list value) : list value :=
  firstn 4 r ++ level :: skipn 5 r.

(** Modelled from the spec: the user insert of [sql_queries.py], which is
    not part of the sources; section 4.5 has it overwrite the stored
    [level] when the user id is already present. *)
Definition insert_or_update_level (table : list (list value)) (r : list value)
  : list (list value) :=
  if existsb (fun r' => sql_eq (field 0 r') (field 0 r)) table
  then map (fun r' => if sql_eq (field 0 r') (field 0 r)
                      then set_level (field 4 r) r' else r') table
  else table ++ [r].

(** Modelled from the spec: the text of [song_select] is in
    [sql_queries.py], which is not part of the sources.  Section 4.4: the
    (song_id, artist_id) of every song, paired with its artist, such that
    the song's title, the artist's name and the song's duration all equal
    the parameters exactly.  Songs are (song_id, title, artist_id, year,
    duration), artists (artist_id, name, location, latitude, longitude). *)
Definition song_select_rows (songs artists : list (list value))
           (title name duration : value) : list (value * value) :=
  flat_map
    (fun s =>
       flat_map
         (fun a =>
            if sql_eq (field 2 s) (field 0 a)
               && sql_eq (field 1 s) title
               && sql_eq (field 1 a) name
               && sql_eq (field 4 s) duration
            then [(field 0 s, field 0 a)] else [])
         artists)
    songs.

(** What a statement that the server accepts does to the state. *)
Definition run_query (q : query) (params : list value) (cur : cursor)
  : cursor :=
  match q with
  | artist_table_insert =>
      mkCursor (insert_or_ignore (artists cur) params) (songs cur) (time cur)
               (users cur) (songplays cur) [] (faults cur)
  | song_table_insert =>
      mkCursor (artists cur) (insert_or_ignore (songs cur) params) (time cur)
               (users cur) (songplays cur) [] (faults cur)
  | time_table_insert =>
      mkCursor (artists cur) (songs cur) (insert_or_ignore (time cur) params)
               (users cur) (songplays cur) [] (faults cur)
  | user_table_insert =>
      mkCursor (artists cur) (songs cur) (time cur)
               (insert_or_update_level (users cur) params)
               (songplays cur) [] (faults cur)
  | songplay_table_insert =>
      mkCursor (artists cur) (songs cur) (time cur) (users cur)
               (songplays cur ++ [params]) [] (faults cur)
  | song_select =>
      mkCursor (artists cur) (songs cur) (time cur) (users cur)
               (songplays cur)
               (song_select_rows (songs cur) (artists cur)
                  (field 0 params) (field 1 params) (field 2 params))
               (faults cur)
  end.

Definition next_call (cur : cursor) : cursor :=
  mkCursor (artists cur) (songs cur) (time cur) (users cur) (songplays cur)
           [] (tl (faults cur)).

(** [cur.execute(q, params)]: the boolean is [false] when the call raises
    [psycopg2.Error], in which case the tables are left as they were. *)
Definition execute (q : query) (params : list value) (cur : cursor)
  : cursor * bool :=
  match faults cur with
  | true :: _ => (next_call cur, false)
  | _ => (run_query q params (next_call cur), true)
  end.

(** [cur.fetchone()]: the next row of the result set, or [None]. *)
Definition fetchone (cur : cursor) : option (value * value) * cursor :=
  match results cur with
  | [] => (None, cur)
  | r :: rest =>
      (Some r,
       mkCursor (artists cur) (songs cur) (time cur) (users cur)
                (songplays cur) rest (faults cur))
  end.

End Psycopg2.

(* ================================================================== *)
(** ** etl.py *)
(* ================================================================== *)

Module Etl.
Import Pandas Psycopg2.

(** What a run leaves for an observer: each [cur.execute] with the index
    label of the frame row its parameters were read from, its parameters
    and whether it succeeded; each [logger.warning]; each [conn.commit]. *)
Inductive event : Type :=
| Executed (i : Z) (q : query) (params : list value) (ok : bool)
| Warning (msg : string)
| Commit.

Inductive outcome : Type :=
| Returned
| Raised (e : exn).

Record run : Type := mkRun {
  final : cursor;
  trace : list event;
  result : outcome
}.

Definition query_eqb (q q' : query) : bool :=
  match q, q' with
  | artist_table_insert, artist_table_insert
  | song_table_insert, song_table_insert
  | time_table_insert, time_table_insert
  | user_table_insert, user_table_insert
  | songplay_table_insert, songplay_table_insert
  | song_select, song_select => true
  | _, _ => false
  end.

(** The calls [cur.execute(q, ...)] of a trace, in order, whether they
    succeeded or not: the row label and the parameters of each. *)
Fixpoint attempts (q : query) (tr : list event) : list (Z * list value) :=
  match tr with
  | [] => []
  | Executed i q' params _ :: tr' =>
      if query_eqb q q' then (i, params) :: attempts q tr'
      else attempts q tr'
  | _ :: tr' => attempts q tr'
  end.

(** The statements of a trace, of any kind. *)
Definition is_statement (e : event) : bool :=
  match e with
  | Executed _ _ _ _ => true
  | _ => false
  end.

Definition statements (tr : list event) : list event :=
  filter is_statement tr.

Definition artist_columns : list string :=
  ["artist_id"; "artist_name"; "artist_location"; "artist_latitude";
   "artist_longitude"].

Definition song_columns : list string :=
  ["song_id"; "title"; "artist_id"; "year"; "duration"].

Definition user_columns : list string :=
  ["userId"; "firstName"; "lastName"; "gender"; "level"].

Definition first_record (df : DataFrame) (cols : list string)
  : option (list value) :=
  match getitem_columns df cols with
  | Some d => values0_tolist d
  | None => None
  end.

(** [df[[...artist columns...]].values[0].tolist()]. *)
Definition artist_data (df : DataFrame) : option (list value) :=
  first_record df artist_columns.

(** [df[[...song columns...]].values[0].tolist()]. *)
Definition song_data (df : DataFrame) : option (list value) :=
  first_record df song_columns.

(** Index label of the row that [.values[0]] reads. *)
Definition first_label (df : DataFrame) : Z :=
  match rows df with
  | [] => 0
  | (i, _) :: _ => i
  end.

(** The seven columns of [time_df] for one timestamp cell. *)
Definition time_data (ts : value) : list value :=
  [ts; dt_hour ts; dt_isocalendar_day ts; dt_isocalendar_week ts;
   dt_month ts; dt_isocalendar_year ts; dt_weekday ts].

(** The columns of a time record, by the position [column_labels] gives
    them: start_time, hour, day, week, month, year, weekday. *)
Definition field_day (rec : list value) : value := field 2 rec.
Definition field_week (rec : list value) : value := field 3 rec.
Definition field_year (rec : list value) : value := field 5 rec.

Definition page : string := "NextSong".

(** [t = df[df["page"] == page]]. *)
Definition t (df : DataFrame) : DataFrame :=
  boolean_mask df (fun r => eq_str (get r "page") page).

(** The rows of [time_df], each under the index label of its line. *)
Definition time_df (df : DataFrame) : list (Z * list value) :=
  map (fun ir => (fst ir, time_data (get (snd ir) "ts"))) (rows (t df)).

(** [user_df] without the rows whose [userId] is the empty string. *)
Definition nonempty_users (user_df : DataFrame) : DataFrame :=
  boolean_mask user_df (fun r => ne_str (get r "userId") EmptyString).

Definition getattr (cols : list string) (r : row) (name : string)
  : exn + value :=
  if has_column cols name then inr (get r name)
  else inl (AttributeError name).

(** The row attributes that [songplay_data] reads. *)
Definition songplay_attributes : list string :=
  ["ts"; "userId"; "level"; "sessionId"; "location"; "userAgent"].

(** The tuple [songplay_data]; its fields are read from left to right. *)
Definition songplay_data (cols : list string) (r : row)
           (songid artistid : value) : exn + list value :=
  match getattr cols r "ts" with
  | inl e => inl e
  | inr ts =>
  match getattr cols r "userId" with
  | inl e => inl e
  | inr userId =>
  match getattr cols r "level" with
  | inl e => inl e
  | inr level =>
  match getattr cols r "sessionId" with
  | inl e => inl e
  | inr sessionId =>
  match getattr cols r "location" with
  | inl e => inl e
  | inr location =>
  match getattr cols r "userAgent" with
  | inl e => inl e
  | inr userAgent =>
      inr [ts; userId; level; songid; artistid; sessionId; location; userAgent]
  end end end end end end.

(** The texts of the warnings of the three loops; the rendering of the
    row that the first two append is left out. *)
Definition time_insert_failed : string :=
  "Error: Could not insert following record in time table: ".
Definition user_insert_failed : string :=
  "Error: Could not insert following record in user table: ".
(** The f-string of the lookup warning runs over two source lines: the
    indentation of the second is part of the text. *)
Definition song_select_failed : string :=
  "Error: Could not get song_id and artist_id                 from song and artist tables".
Definition songplay_insert_failed : string :=
  "Error: Could not insert songplay record.".

(** [for i, row in time_df.iterrows(): ...]. *)
Fixpoint insert_time_records (cur : cursor) (records : list (Z * list value))
  : cursor * list event :=
  match records with
  | [] => (cur, [])
  | (i, rec) :: records' =>
      let (cur1, ok) := execute time_table_insert rec cur in
      let (cur2, tr) := insert_time_records cur1 records' in
      (cur2,
       Executed i time_table_insert rec ok
       :: (if ok then tr else Warning time_insert_failed :: tr))
  end.

(** [for i, row in user_df.iterrows(): ...]. *)
Fixpoint insert_user_records (cur : cursor) (cols : list string)
         (records : list (Z * row)) : cursor * list event :=
  match records with
  | [] => (cur, [])
  | (i, r) :: records' =>
      let (cur1, ok) := execute user_table_insert (tolist cols r) cur in
      let (cur2, tr) := insert_user_records cur1 cols records' in
      (cur2,
       Executed i user_table_insert (tolist cols r) ok
       :: (if ok then tr else Warning user_insert_failed :: tr))
  end.

(** What a line must look like for a statement of each kind to be issued
    for it. *)
Definition issued_for (q : query) (params : list value) (line : row) : Prop :=
  match q with
  | time_table_insert =>
      eq_str (get line "page") page = true
      /\ params = time_data (converted_cell (get line "ts"))
  | user_table_insert =>
      ne_str (get line "userId") EmptyString = true
      /\ params = tolist user_columns line
  | song_select | songplay_table_insert =>
      isna (get line "artist") = false
      /\ isna (get line "song") = false
      /\ isna (get line "length") = false
  | artist_table_insert | song_table_insert => False
  end.

(** The (song_id, artist_id) taken from [results = cur.fetchone()]. *)
Definition resolved_ids (results : option (value * value)) : value * value :=
  match results with
  | Some (songid, artistid) => (songid, artistid)
  | None => (Null, Null)
  end.

(** [for index, row in df.iterrows(): ...], the songplay loop. *)
Fixpoint insert_songplay_records (cur : cursor) (cols : list string)
         (records : list (Z * row)) : run :=
  match records with
  | [] => mkRun cur [] Returned
  | (index, r) :: records' =>
      let lookup := [get r "song"; get r "artist"; get r "length"] in
      let (cur1, found) := execute song_select lookup cur in
      if found then
        let (results, cur2) := fetchone cur1 in
        let (songid, artistid) := resolved_ids results in
        match songplay_data cols r songid artistid with
        | inl e =>
            mkRun cur2 [Executed index song_select lookup true] (Raised e)
        | inr data =>
            let (cur3, ok) := execute songplay_table_insert data cur2 in
            let rest := insert_songplay_records cur3 cols records' in
            mkRun (final rest)
                  (Executed index song_select lookup true
                   :: Executed index songplay_table_insert data ok
                   :: (if ok then trace rest
                       else Warning songplay_insert_failed :: trace rest))
                  (result rest)
        end
      else
        let rest := insert_songplay_records cur1 cols records' in
        mkRun (final rest)
              (Executed index song_select lookup false
               :: Warning song_select_failed :: trace rest)
              (result rest)
  end.

Section Files.

(** [pd.read_json(filepath, lines=True)]: the frame of the file at
    [filepath], or [None] when reading or parsing it raises. *)
Variable read_json : string -> option DataFrame.

Definition process_song_file (cur : cursor) (filepath : string) : run :=
  match read_json filepath with
  | None =>
      mkRun cur
            [Warning ("Error: Could not read JSON content of " ++ filepath)]
            Returned
  | Some df =>
  match artist_data df with
  | None =>
      mkRun cur [Warning "Error: Could not extract artist columns from df"]
            Returned
  | Some artist_data =>
  let i := first_label df in
  let (cur1, ok) := execute artist_table_insert artist_data cur in
  if negb ok then
    mkRun cur1
          [Executed i artist_table_insert artist_data false;
           Warning "Error: Could not insert artist record in artist table"]
          Returned
  else
  match song_data df with
  | None =>
      mkRun cur1
            [Executed i artist_table_insert artist_data true;
             Warning "Error: Could not extract song columns from df"]
            Returned
  | Some song_data =>
  let (cur2, ok2) := execute song_table_insert song_data cur1 in
  mkRun cur2
        (Executed i artist_table_insert artist_data true
         :: Executed i song_table_insert song_data ok2
         :: (if ok2 then []
             else [Warning "Error: Could not insert song record in song table"]))
        Returned
  end end end.

Definition process_log_file (cur : cursor) (filepath : string) : run :=
  match read_json filepath with
  | None =>
      mkRun cur
            [Warning ("Error: Could not read JSON content of " ++ filepath)]
            Returned
  | Some df =>
  (* df["ts"] = pd.to_datetime(df["ts"], unit="ms") *)
  if negb (has_column (columns df) "ts") then
    mkRun cur [] (Raised (KeyError "ts"))
  else
  match convert_column "ts" (rows df) with
  | inl e => mkRun cur [] (Raised e)
  | inr converted =>
  let df := mkDataFrame (columns df) converted in
  if negb (has_column (columns df) "page") then
    mkRun cur [] (Raised (KeyError "page"))
  else
  let (cur1, tr1) := insert_time_records cur (time_df df) in
  match getitem_columns df user_columns with
  | None =>
      mkRun cur1
            (tr1 ++ [Warning "Error: Could not extract song columns from dataframe"])
            Returned
  | Some user_df =>
  (* the second [try] of the user block cannot fail once the selection
     above has succeeded: [userId] is a column of [user_df] *)
  let user_df := nonempty_users user_df in
  let (cur2, tr2) := insert_user_records cur1 (columns user_df) (rows user_df) in
  match dropna df ["artist"; "song"; "length"] with
  | None => mkRun cur2 (tr1 ++ tr2) (Raised (KeyError "artist, song, length"))
  | Some df =>
  let plays := insert_songplay_records cur2 (columns df) (rows df) in
  mkRun (final plays) (tr1 ++ tr2 ++ trace plays) (result plays)
  end end end end.

(** [process_data]: [all_files] is the listing that the directory walk
    produced; every file is handed to [func] and followed by a commit. *)
Fixpoint process_data (cur : cursor) (all_files : list string)
         (func : cursor -> string -> run) : run :=
  match all_files with
  | [] => mkRun cur [] Returned
  | datafile :: all_files' =>
      let r := func cur datafile in
      match result r with
      | Raised e => r
      | Returned =>
          let r' := process_data (final r) all_files' func in
          mkRun (final r') (trace r ++ Commit :: trace r') (result r')
      end
  end.

(** [main], once the connection is open: song files, then log files. *)
Definition main (cur : cursor) (song_files log_files : list string) : run :=
  let r := process_data cur song_files process_song_file in
  match result r with
  | Raised e => r
  | Returned =>
      let r' := process_data (final r) log_files process_log_file in
      mkRun (final r') (trace r ++ trace r') (result r')
  end.

End Files.

End Etl.

(* ================================================================== *)
(** ** Sample files and cursors *)
(* ================================================================== *)

Module Samples.
Import Pandas Psycopg2 Etl.

Definition song_file_columns : list string :=
  ["artist_id"; "artist_latitude"; "artist_location"; "artist_longitude";
   "artist_name"; "duration"; "song_id"; "title"; "year"].

(** The song-metadata file of the end-to-end scenario. *)
Definition song_line : row :=
  [("artist_id", Str "A1"); ("artist_latitude", Null);
   ("artist_location", Null); ("artist_longitude", Null);
   ("artist_name", Str "Nirvana"); ("duration", Float (200 # 1));
   ("song_id", Str "S1"); ("title", Str "X"); ("year", Int 1994)].

Definition song_frame : DataFrame :=
  mkDataFrame song_file_columns [(0, song_line)].

(** A song-metadata file whose only line has no [title] field. *)
Definition untitled_line : row :=
  [("artist_id", Str "A1"); ("artist_latitude", Null);
   ("artist_location", Null); ("artist_longitude", Null);
   ("artist_name", Str "Nirvana"); ("duration", Float (200 # 1));
   ("song_id", Str "S1"); ("year", Int 1994)].

Definition untitled_frame : DataFrame :=
  mkDataFrame
    ["artist_id"; "artist_latitude"; "artist_location"; "artist_longitude";
     "artist_name"; "duration"; "song_id"; "year"]
    [(0, untitled_line)].

Definition log_file_columns : list string :=
  ["artist"; "firstName"; "gender"; "lastName"; "length"; "level";
   "location"; "page"; "sessionId"; "song"; "ts"; "userAgent"; "userId"].

(** A song play. *)
Definition play_line : row :=
  [("artist", Str "Nirvana"); ("firstName", Str "Ada"); ("gender", Str "F");
   ("lastName", Str "Byron"); ("length", Float (200 # 1));
   ("level", Str "free"); ("location", Str "Leeds"); ("page", Str "NextSong");
   ("sessionId", Int 139); ("song", Str "X"); ("ts", Int 1541121934796);
   ("userAgent", Str "Mozilla"); ("userId", Str "7")].

(** A line of another page that still names an artist, a song and a
    length. *)
Definition home_line : row :=
  [("artist", Str "Nirvana"); ("firstName", Str "Bob"); ("gender", Str "M");
   ("lastName", Str "Crane"); ("length", Float (401 # 2));
   ("level", Str "paid"); ("location", Str "York"); ("page", Str "Home");
   ("sessionId", Int 140); ("song", Str "X"); ("ts", Int 1541122000000);
   ("userAgent", Str "Mozilla"); ("userId", Str "8")].

(** A logged-out visitor: the user id is the empty string. *)
Definition anonymous_line : row :=
  [("artist", Null); ("firstName", Null); ("gender", Null);
   ("lastName", Null); ("length", Null); ("level", Str "free");
   ("location", Null); ("page", Str "Home"); ("sessionId", Int 141);
   ("song", Null); ("ts", Int 1541122100000);
   ("userAgent", Str "Mozilla"); ("userId", Str EmptyString)].

(** A line whose user id is [null]. *)
Definition nobody_line : row :=
  [("artist", Null); ("firstName", Null); ("gender", Null);
   ("lastName", Null); ("length", Null); ("level", Str "free");
   ("location", Null); ("page", Str "Home"); ("sessionId", Int 142);
   ("song", Null); ("ts", Int 1541122200000);
   ("userAgent", Str "Mozilla"); ("userId", Null)].

Definition log_frame : DataFrame :=
  mkDataFrame log_file_columns
    [(0, play_line); (1, home_line); (2, anonymous_line); (3, nobody_line)].

Definition home_frame : DataFrame :=
  mkDataFrame log_file_columns [(0, home_line)].

(** The directory: four readable files, every other path unreadable. *)
Definition read_json (filepath : string) : option DataFrame :=
  if String.eqb filepath "song.json" then Some song_frame
  else if String.eqb filepath "untitled.json" then Some untitled_frame
  else if String.eqb filepath "log.json" then Some log_frame
  else if String.eqb filepath "home.json" then Some home_frame
  else None.

(** An empty database on a server that raises on the calls flagged
    [true]. *)
Definition empty_cursor (faults : list bool) : cursor :=
  mkCursor [] [] [] [] [] [] faults.

(** The database after [song.json] has been loaded. *)
Definition loaded_cursor (faults : list bool) : cursor :=
  mkCursor [[Str "A1"; Str "Nirvana"; Null; Null; Null]]
           [[Str "S1"; Str "X"; Str "A1"; Int 1994; Float (200 # 1)]]
           [] [] [] [] faults.

End Samples.

(* ================================================================== *)
(** ** Reading a trace *)
(* ================================================================== *)

Module Observations.
Import Pandas Psycopg2 Etl.

Definition is_warning (e : event) : bool :=
  match e with
  | Warning _ => true
  | _ => false
  end.

(** The [logger.warning] calls of a trace. *)
Definition warnings (tr : list event) : list event := filter is_warning tr.

Definition is_failure (e : event) : bool :=
  match e with
  | Executed _ _ _ false => true
  | _ => false
  end.

(** The [cur.execute] calls of a trace that raised. *)
Definition failures (tr : list event) : list event := filter is_failure tr.

(** A trace in which the warnings are as many as the failed statements. *)
Definition logged_as_failed (tr : list event) : Prop :=
  List.length (warnings tr) = List.length (failures tr).

(** The number of [conn.commit] calls of a trace. *)
Fixpoint commits (tr : list event) : nat :=
  match tr with
  | [] => 0%nat
  | Commit :: tr' => S (commits tr')
  | _ :: tr' => commits tr'
  end.

(** The row labels of the calls [cur.execute(q, ...)] that succeeded. *)
Fixpoint succeeded (q : query) (tr : list event) : list Z :=
  match tr with
  | [] => []
  | Executed i q' _ true :: tr' =>
      if query_eqb q q' then i :: succeeded q tr' else succeeded q tr'
  | _ :: tr' => succeeded q tr'
  end.

(** The parameters of the lookup issued for a row. *)
Definition lookup_params (r : row) : list value :=
  [get r "song"; get r "artist"; get r "length"].

(** The rows that [dropna] on artist, song and length keeps. *)
Definition names_a_song (r : row) : bool :=
  negb (isna (get r "artist")) && negb (isna (get r "song"))
  && negb (isna (get r "length")).

End Observations.

(* ================================================================== *)
(** ** create_tables.py *)
(* ================================================================== *)

Module CreateTables.

(** What a run does to the server, in order: each [psycopg2.connect] with
    the database it names and its outcome, [conn.set_session], each
    [conn.cursor()] and [cur.execute] with its outcome, each
    [conn.commit], [conn.close] and [logger.warning]. *)
Inductive action : Type :=
| Connect (dbname : string) (ok : bool)
| SetAutocommit
| OpenCursor (ok : bool)
| Run (sql : string) (ok : bool)
| CommitTransaction
| CloseConnection
| LogWarning (msg : string).

(** The server is given by its answers to the calls that stand in a
    [try]: [true] when the coming call raises [psycopg2.Error].  The
    calls outside any [try] ([set_session], [commit], [close]) are taken
    to succeed. *)
Definition raises (server : list bool) : bool := hd false server.

Record attempt : Type := mkAttempt {
  handle : option string;
  actions : list action;
  remaining : list bool
}.

Definition drop_database : string := "DROP DATABASE IF EXISTS sparkifydb".
Definition create_database_sql : string :=
  "CREATE DATABASE sparkifydb WITH ENCODING 'utf8' TEMPLATE template0".

(** [create_database]: the handle is the database that the returned
    cursor and connection are on, [None] when the function gives up. *)
Definition create_database (server : list bool) : attempt :=
  (* connect to default database *)
  if raises server then
    mkAttempt None
      [Connect "studentdb" false;
       LogWarning "ERROR: Could not make connection to studentdb database."]
      (tl server)
  else
  let server1 := tl server in
  let tr1 := [Connect "studentdb" true; SetAutocommit] in
  if raises server1 then
    mkAttempt None
      (tr1 ++ [OpenCursor false;
               LogWarning "ERROR: Could not get cursor to studentdb database."])
      (tl server1)
  else
  let server2 := tl server1 in
  let tr2 := tr1 ++ [OpenCursor true] in
  (* create sparkify database with UTF8 encoding *)
  if raises server2 then
    mkAttempt None
      (tr2 ++ [Run drop_database false;
               LogWarning "ERROR: There was an issue while dropping sparkifydb."])
      (tl server2)
  else
  let server3 := tl server2 in
  let tr3 := tr2 ++ [Run drop_database true] in
  if raises server3 then
    mkAttempt None
      (tr3 ++ [Run create_database_sql false;
               LogWarning "ERROR: Could not create sparkifydb."])
      (tl server3)
  else
  let server4 := tl server3 in
  (* close connection to default database *)
  let tr4 := tr3 ++ [Run create_database_sql true; CloseConnection] in
  (* connect to sparkify database *)
  if raises server4 then
    mkAttempt None
      (tr4 ++ [Connect "sparkifydb" false;
               LogWarning "ERROR: Could not make connection to sparkify database."])
      (tl server4)
  else
  let server5 := tl server4 in
  let tr5 := tr4 ++ [Connect "sparkifydb" true] in
  if raises server5 then
    mkAttempt None
      (tr5 ++ [OpenCursor false;
               LogWarning "ERROR: Could not get cursor to sparkify database."])
      (tl server5)
  else
    mkAttempt (Some "sparkifydb") (tr5 ++ [OpenCursor true]) (tl server5).

(** The loop that [drop_tables] and [create_tables] share, up to the text
    of the warning: each query is executed; a failure is logged and the
    loop goes on, a success is committed. *)
Fixpoint execute_each (could_not : string) (queries : list string)
         (server : list bool) : list action * list bool :=
  match queries with
  | [] => ([], server)
  | query :: queries' =>
      if raises server then
        let (tr, server') := execute_each could_not queries' (tl server) in
        (Run query false :: LogWarning (could_not ++ query) :: tr, server')
      else
        let (tr, server') := execute_each could_not queries' (tl server) in
        (Run query true :: CommitTransaction :: tr, server')
  end.

Section Queries.

(** The two lists of [sql_queries.py], which is not part of the sources. *)
Variable drop_table_queries : list string.
Variable create_table_queries : list string.

Definition drop_tables (server : list bool) : list action * list bool :=
  execute_each "ERROR: Could not drop table with query: "
               drop_table_queries server.

Definition create_tables (server : list bool) : list action * list bool :=
  execute_each "ERROR: Could not create table with query: "
               create_table_queries server.

(** [main]: the actions of the whole script. *)
Definition main (server : list bool) : list action :=
  let db := create_database server in
  match handle db with
  | None => actions db
  | Some _ =>
      let (dropped, server1) := drop_tables (remaining db) in
      let (created, server2) := create_tables server1 in
      actions db ++ dropped ++ created ++ [CloseConnection]
  end.

End Queries.

(** The statements of a trace, in order, whether they succeeded or not. *)
Fixpoint ran (tr : list action) : list string :=
  match tr with
  | [] => []
  | Run sql _ :: tr' => sql :: ran tr'
  | _ :: tr' => ran tr'
  end.

Definition count (p : action -> bool) (tr : list action) : nat :=
  List.length (filter p tr).

Definition is_open (a : action) : bool :=
  match a with Connect _ true => true | _ => false end.
Definition is_refused (a : action) : bool :=
  match a with Connect _ false => true | _ => false end.
Definition is_close (a : action) : bool :=
  match a with CloseConnection => true | _ => false end.
Definition is_commit (a : action) : bool :=
  match a with CommitTransaction => true | _ => false end.
Definition is_log (a : action) : bool :=
  match a with LogWarning _ => true | _ => false end.
Definition is_run_ok (a : action) : bool :=
  match a with Run _ true => true | _ => false end.
Definition is_run_failed (a : action) : bool :=
  match a with Run _ false => true | _ => false end.

End CreateTables.

(* ================================================================== *)
(** ** More sample files *)
(* ================================================================== *)

Module MoreSamples.
Import Pandas Psycopg2 Etl Samples.

(** A second song line, for a song file of two lines. *)
Definition second_song_line : row :=
  [("artist_id", Str "A2"); ("artist_latitude", Null);
   ("artist_location", Null); ("artist_longitude", Null);
   ("artist_name", Str "Hole"); ("duration", Float (180 # 1));
   ("song_id", Str "S2"); ("title", Str "Y"); ("year", Int 1994)].

Definition two_songs_frame : DataFrame :=
  mkDataFrame song_file_columns [(0, song_line); (1, second_song_line)].

(** A log file without the [level] column. *)
Definition no_level_columns : list string :=
  ["artist"; "firstName"; "gender"; "lastName"; "length";
   "location"; "page"; "sessionId"; "song"; "ts"; "userAgent"; "userId"].

Definition no_level_frame : DataFrame :=
  mkDataFrame no_level_columns [(0, play_line); (1, home_line)].

(** A log file without the [sessionId] column. *)
Definition no_session_columns : list string :=
  ["artist"; "firstName"; "gender"; "lastName"; "length"; "level";
   "location"; "page"; "song"; "ts"; "userAgent"; "userId"].

Definition no_session_frame : DataFrame :=
  mkDataFrame no_session_columns [(0, play_line); (1, home_line)].

(** A log file whose last line has a [ts] in the year 2286. *)
Definition bad_ts_line : row :=
  [("artist", Null); ("length", Null); ("level", Str "free");
   ("page", Str "Home"); ("song", Null); ("ts", Int 10000000000000);
   ("userId", Str "9")].

Definition bad_ts_frame : DataFrame :=
  mkDataFrame log_file_columns [(0, play_line); (1, bad_ts_line)].

(** A log file without the [ts] column. *)
Definition no_ts_frame : DataFrame :=
  mkDataFrame ["page"; "userId"] [(0, [("page", Str "Home"); ("userId", Str "9")])].

Definition read_more (filepath : string) : option DataFrame :=
  if String.eqb filepath "two_songs.json" then Some two_songs_frame
  else if String.eqb filepath "no_level.json" then Some no_level_frame
  else if String.eqb filepath "no_session.json" then Some no_session_frame
  else if String.eqb filepath "bad_ts.json" then Some bad_ts_frame
  else if String.eqb filepath "no_ts.json" then Some no_ts_frame
  else read_json filepath.

End MoreSamples.

(* ================================================================== *)
(** * Properties *)
(* ================================================================== *)

Module CalendarFacts.
Import Calendar.

Lemma year_of_bounds (n : Z) :
  days_before_year (year_of n) < n <= days_before_year (year_of n + 1).
Proof.
  unfold year_of, ord2ymd, days_before_year, DI400Y, DI100Y, DI4Y.
  cbv zeta.
  destruct ((((n - 1) mod 146097 mod 36524 mod 1461 / 365 =? 4)
             || ((n - 1) mod 146097 / 36524 =? 4))%bool) eqn:E.
  - cbn [fst snd]. apply orb_true_iff in E.
    rewrite !Z.eqb_eq in E.
    Z.div_mod_to_equations. lia.
  - apply orb_false_iff in E. rewrite !Z.eqb_neq in E.
    match goal with
    | |- context [if ?c then _ else _] => destruct c
    end; cbn [fst snd]; Z.div_mod_to_equations; lia.
Qed.

Lemma jan1_ordinal (y : Z) : ymd2ord y 1 1 = days_before_year y + 1.
Proof. unfold ymd2ord, days_before_month. cbn. lia. Qed.

Lemma isoweek1monday_first_thursday (y : Z) :
  isoweek1monday y = iso_week1_start y.
Proof.
  unfold isoweek1monday, iso_week1_start, first_thursday, weekday, THURSDAY.
  cbv zeta. rewrite jan1_ordinal.
  destruct (3 <? (days_before_year y + 1 + 6) mod 7) eqn:E.
  - apply Z.ltb_lt in E. Z.div_mod_to_equations. lia.
  - apply Z.ltb_ge in E. Z.div_mod_to_equations. lia.
Qed.

Lemma year_length (y : Z) :
  days_before_year (y + 1) - days_before_year y = 365 \/
  days_before_year (y + 1) - days_before_year y = 366.
Proof. unfold days_before_year. cbv zeta. Z.div_mod_to_equations. lia. Qed.

Lemma iso_week1_start_near (y : Z) :
  days_before_year y - 2 <= iso_week1_start y <= days_before_year y + 4
  /\ (iso_week1_start y) mod 7 = 1.
Proof.
  unfold iso_week1_start, first_thursday, weekday, THURSDAY. cbv zeta.
  rewrite jan1_ordinal. Z.div_mod_to_equations. lia.
Qed.

Lemma isocalendar_iso8601 (n : Z) :
  iso8601_week_date n (fst (fst (isocalendar n))) (snd (fst (isocalendar n))).
Proof.
  unfold isocalendar, iso8601_week_date. cbv zeta.
  rewrite !isoweek1monday_first_thursday.
  pose proof (year_of_bounds n) as Hy.
  set (y := year_of n) in *.
  pose proof (iso_week1_start_near (y - 1)) as Hm.
  pose proof (iso_week1_start_near y) as H0.
  pose proof (iso_week1_start_near (y + 1)) as H1.
  pose proof (iso_week1_start_near (y + 2)) as H2.
  pose proof (year_length (y - 1)) as Lm.
  pose proof (year_length y) as L0.
  pose proof (year_length (y + 1)) as L1.
  replace (y - 1 + 1) with y in * by lia.
  replace (y + 1 + 1) with (y + 2) in * by lia.
  destruct ((n - iso_week1_start y) / 7 <? 0) eqn:E1.
  - apply Z.ltb_lt in E1. cbn [fst snd].
    replace (y - 1 + 1) with y by lia.
    split; [|reflexivity]. Z.div_mod_to_equations. lia.
  - apply Z.ltb_ge in E1.
    destruct ((52 <=? (n - iso_week1_start y) / 7)
              && (iso_week1_start (y + 1) <=? n))%bool eqn:E2.
    + apply andb_true_iff in E2. destruct E2 as [E2 E3].
      apply Z.leb_le in E2, E3. cbn [fst snd].
      replace (y + 1 + 1) with (y + 2) by lia.
      split; Z.div_mod_to_equations; lia.
    + apply andb_false_iff in E2. cbn [fst snd].
      split; [|reflexivity].
      destruct E2 as [E2|E2]; [apply Z.leb_gt in E2|apply Z.leb_gt in E2];
        Z.div_mod_to_equations; lia.
Qed.

End CalendarFacts.

Module TimeBucketFacts.
Import Calendar CalendarFacts Pandas Etl.

Lemma iso_week1_start_step (y : Z) :
  iso_week1_start y < iso_week1_start (y + 1).
Proof.
  pose proof (iso_week1_start_near y).
  pose proof (iso_week1_start_near (y + 1)).
  pose proof (year_length y). lia.
Qed.

Lemma iso_week1_start_mono (y y' : Z) :
  y <= y' -> iso_week1_start y <= iso_week1_start y'.
Proof.
  intros Hle. replace y' with (y + (y' - y)) by lia.
  assert (Hd : 0 <= y' - y) by lia. revert Hd.
  generalize (y' - y). intros d Hd.
  pattern d. apply natlike_ind; [ | | exact Hd].
  - rewrite Z.add_0_r. lia.
  - intros x Hx IH. pose proof (iso_week1_start_step (y + x)).
    replace (y + Z.succ x) with (y + x + 1) by lia. lia.
Qed.

(** A date lies in exactly one ISO year, and has exactly one week number
    there. *)
Lemma iso8601_week_date_unique (n y w y' w' : Z) :
  iso8601_week_date n y w -> iso8601_week_date n y' w' -> y = y' /\ w = w'.
Proof.
  intros [[H1 H2] H3] [[H1' H2'] H3'].
  assert (y = y').
  { destruct (Z.lt_trichotomy y y') as [Hlt|[Heq|Hgt]]; [|exact Heq|].
    - pose proof (iso_week1_start_mono (y + 1) y'). lia.
    - pose proof (iso_week1_start_mono (y' + 1) y). lia. }
  subst y'. split; [reflexivity|congruence].
Qed.

(** The ISO weekday that [isocalendar] returns is the weekday counted from
    Monday = 1. *)
Lemma isocalendar_day_weekday (n : Z) :
  snd (isocalendar n) = weekday n + 1.
Proof.
  unfold isocalendar. cbv zeta.
  rewrite !isoweek1monday_first_thursday.
  pose proof (iso_week1_start_near (year_of n)) as H0.
  pose proof (iso_week1_start_near (year_of n - 1)) as Hm.
  unfold weekday.
  destruct ((n - iso_week1_start (year_of n)) / 7 <? 0).
  - cbn [snd]. Z.div_mod_to_equations. lia.
  - destruct ((52 <=? (n - iso_week1_start (year_of n)) / 7)
              && (iso_week1_start (year_of n + 1) <=? n))%bool;
      cbn [snd]; Z.div_mod_to_equations; lia.
Qed.

(** C3 -- the [day] column of a time record.  At 2018-11-02T01:25:34.796Z,
    a Friday, the column holds 5, the ISO weekday read from
    [isocalendar().day], while the day of the month is 2. *)
Theorem time_data_day_is_iso_weekday :
  field_day (time_data (Timestamp 1541121934796)) = Int 5
  /\ dt_day (Timestamp 1541121934796) = Int 2
  /\ ord2ymd (toordinal 1541121934796) = (2018, 11, 2)
  /\ forall ms, field_day (time_data (Timestamp ms))
                = Int (weekday (toordinal ms) + 1)
                /\ 1 <= weekday (toordinal ms) + 1 <= 7.
Proof.
  split; [reflexivity|]. split; [reflexivity|]. split; [reflexivity|].
  intros ms. split.
  - unfold field_day, time_data. cbn [nth].
    unfold dt_isocalendar_day, dt. now rewrite isocalendar_day_weekday.
  - unfold weekday. Z.div_mod_to_equations. lia.
Qed.

(** C4 -- the [year] and [week] columns of a time record follow ISO-8601
    week numbering: the date lies in the ISO year whose week 1 (the week
    of that year's first Thursday) starts on or before it, and the week
    counts from there; no other pair does.  2021-01-01T00:00:00Z, in
    calendar year 2021, is in week 53 of ISO year 2020. *)
Theorem time_data_iso_week ms :
  (exists y w,
      field_year (time_data (Timestamp ms)) = Int y
      /\ field_week (time_data (Timestamp ms)) = Int w
      /\ iso8601_week_date (toordinal ms) y w
      /\ 1 <= w <= 53
      /\ forall y' w', iso8601_week_date (toordinal ms) y' w' ->
                       y' = y /\ w' = w)
  /\ field_year (time_data (Timestamp 1609459200000)) = Int 2020
  /\ field_week (time_data (Timestamp 1609459200000)) = Int 53
  /\ year_of (toordinal 1609459200000) = 2021.
Proof.
  split; [|repeat split; reflexivity].
  pose proof (isocalendar_iso8601 (toordinal ms)) as H.
  exists (fst (fst (isocalendar (toordinal ms)))),
         (snd (fst (isocalendar (toordinal ms)))).
  split; [reflexivity|]. split; [reflexivity|]. split; [exact H|].
  split.
  - destruct H as [[H1 H2] H3].
    set (y := fst (fst (isocalendar (toordinal ms)))) in *.
    pose proof (iso_week1_start_near y).
    pose proof (iso_week1_start_near (y + 1)).
    pose proof (year_length y).
    rewrite H3. Z.div_mod_to_equations. lia.
  - intros y' w' H'. eapply iso8601_week_date_unique; eassumption.
Qed.

End TimeBucketFacts.

Module EtlFacts.
Import Pandas Psycopg2 Etl.

(** *** Traces *)

Lemma query_eqb_eq (q q' : query) : query_eqb q q' = true <-> q = q'.
Proof. destruct q, q'; simpl; split; intros H; try reflexivity; discriminate H. Qed.

Lemma query_eqb_refl (q : query) : query_eqb q q = true.
Proof. now apply query_eqb_eq. Qed.

Lemma attempts_app (q : query) (tr1 tr2 : list event) :
  attempts q (tr1 ++ tr2) = attempts q tr1 ++ attempts q tr2.
Proof.
  induction tr1 as [|e tr1 IH]; simpl; [reflexivity|].
  destruct e as [i q' params ok| |]; try exact IH.
  destruct (query_eqb q q'); simpl; now rewrite IH.
Qed.

Lemma In_attempts (q : query) (tr : list event) (i : Z) (params : list value) :
  In (i, params) (attempts q tr) <-> exists ok, In (Executed i q params ok) tr.
Proof.
  induction tr as [|e tr IH]; simpl.
  - split; [intros []|intros [_ []]].
  - destruct e as [j q' params' ok'| |].
    + destruct (query_eqb q q') eqn:E.
      * apply query_eqb_eq in E. subst q'. simpl. rewrite IH. split.
        -- intros [H|[ok H]]; [inversion H; subst; eauto|eauto].
        -- intros [ok [H|H]]; [inversion H; subst; auto|eauto].
      * rewrite IH. split.
        -- intros [ok H]; eauto.
        -- intros [ok [H|H]]; [|eauto].
           inversion H; subst. rewrite query_eqb_refl in E. discriminate.
    + rewrite IH. split; intros [ok H]; [eauto|].
      destruct H as [H|H]; [discriminate|eauto].
    + rewrite IH. split; intros [ok H]; [eauto|].
      destruct H as [H|H]; [discriminate|eauto].
Qed.

Lemma filter_map_commute {A B : Type} (f : B -> bool) (g : A -> B) (l : list A) :
  filter f (map g l) = map g (filter (fun x => f (g x)) l).
Proof.
  induction l as [|x l IH]; simpl; [reflexivity|].
  destruct (f (g x)); simpl; now rewrite IH.
Qed.

(** *** Rows *)

Lemma get_set_other (r : row) (c c' : string) (v : value) :
  String.eqb c c' = false -> get (set r c v) c' = get r c'.
Proof. intros H. unfold set. simpl. now rewrite H. Qed.

Lemma get_set_same (r : row) (c : string) (v : value) :
  get (set r c v) c = v.
Proof. unfold set. simpl. now rewrite String.eqb_refl. Qed.



Lemma convert_column_map (c : string) (rs conv : list (Z * row)) :
  convert_column c rs = inr conv ->
  conv = map (fun ir => (fst ir, set (snd ir) c (converted_cell (get (snd ir) c)))) rs.
Proof.
  revert conv. induction rs as [|[i r] rs IH]; simpl; intros conv H.
  - now inversion H.
  - destruct (to_datetime_ms (get r c)) as [e|v] eqn:E; [discriminate|].
    destruct (convert_column c rs) as [e|conv']; [discriminate|].
    inversion H; subst. rewrite <- (IH conv' eq_refl).
    unfold converted_cell. now rewrite E.
Qed.

(** *** The three loops *)

Lemma insert_time_records_attempts cur records (q : query) :
  attempts q (snd (insert_time_records cur records))
  = if query_eqb q time_table_insert then records else [].
Proof.
  revert cur. induction records as [|[i rec] records IH]; intros cur; simpl.
  - now destruct (query_eqb q time_table_insert).
  - destruct (execute time_table_insert rec cur) as [cur1 ok].
    specialize (IH cur1).
    destruct (insert_time_records cur1 records) as [cur2 tr]. simpl in *.
    destruct (query_eqb q time_table_insert); destruct ok; simpl;
      now rewrite IH.
Qed.

Lemma insert_user_records_attempts cur cols records (q : query) :
  attempts q (snd (insert_user_records cur cols records))
  = if query_eqb q user_table_insert
    then map (fun ir => (fst ir, tolist cols (snd ir))) records else [].
Proof.
  revert cur. induction records as [|[i r] records IH]; intros cur; simpl.
  - now destruct (query_eqb q user_table_insert).
  - destruct (execute user_table_insert (tolist cols r) cur) as [cur1 ok].
    specialize (IH cur1).
    destruct (insert_user_records cur1 cols records) as [cur2 tr]. simpl in *.
    destruct (query_eqb q user_table_insert); destruct ok; simpl;
      now rewrite IH.
Qed.

(** Every statement of the songplay loop is a lookup or a fact insert, and
    is issued for one of the rows the loop iterates over. *)
Lemma insert_songplay_records_events cur cols records i q params ok :
  In (Executed i q params ok) (trace (insert_songplay_records cur cols records)) ->
  (q = song_select \/ q = songplay_table_insert)
  /\ exists r, In (i, r) records.
Proof.
  revert cur. induction records as [|[j r] records IH]; intros cur; simpl.
  - intros [].
  - destruct (execute song_select _ cur) as [cur1 found].
    destruct found.
    + destruct (fetchone cur1) as [res cur2].
      destruct (resolved_ids res) as [songid artistid].
      destruct (songplay_data cols r songid artistid) as [e|data]; simpl.
      * intros [H|[]]. inversion H; subst. eauto.
      * destruct (execute songplay_table_insert data cur2) as [cur3 ok3].
        simpl. intros [H|[H|H]].
        -- inversion H; subst. eauto.
        -- inversion H; subst. eauto.
        -- assert (H' : In (Executed i q params ok)
                           (trace (insert_songplay_records cur3 cols records))).
           { destruct ok3; [exact H|].
             destruct H as [H|H]; [discriminate|exact H]. }
           apply IH in H'. destruct H' as [Hq [r' Hr']]. eauto.
    + simpl. intros [H|[H|H]].
      * inversion H; subst. eauto.
      * discriminate.
      * apply IH in H. destruct H as [Hq [r' Hr']]. eauto.
Qed.

Lemma insert_songplay_records_attempts_other cur cols records (q : query) :
  q <> song_select -> q <> songplay_table_insert ->
  attempts q (trace (insert_songplay_records cur cols records)) = [].
Proof.
  intros H1 H2.
  destruct (attempts q (trace (insert_songplay_records cur cols records)))
    as [|[i params] l] eqn:E; [reflexivity|].
  assert (H : In (i, params)
                 (attempts q (trace (insert_songplay_records cur cols records)))).
  { rewrite E. now left. }
  apply In_attempts in H. destruct H as [ok H].
  apply insert_songplay_records_events in H. destruct H as [[H|H] _]; contradiction.
Qed.

Lemma insert_time_records_events cur records i q params ok :
  In (Executed i q params ok) (snd (insert_time_records cur records)) ->
  q = time_table_insert /\ In (i, params) records.
Proof.
  intros H.
  assert (H' : In (i, params) (attempts q (snd (insert_time_records cur records)))).
  { apply In_attempts. eauto. }
  rewrite insert_time_records_attempts in H'.
  destruct (query_eqb q time_table_insert) eqn:E; [|destruct H'].
  apply query_eqb_eq in E. auto.
Qed.

Lemma insert_user_records_events cur cols records i q params ok :
  In (Executed i q params ok) (snd (insert_user_records cur cols records)) ->
  q = user_table_insert
  /\ exists r, In (i, r) records /\ params = tolist cols r.
Proof.
  intros H.
  assert (H' : In (i, params)
                  (attempts q (snd (insert_user_records cur cols records)))).
  { apply In_attempts. eauto. }
  rewrite insert_user_records_attempts in H'.
  destruct (query_eqb q user_table_insert) eqn:E; [|destruct H'].
  apply query_eqb_eq in E. split; [exact E|].
  apply in_map_iff in H'. destruct H' as [[j r] [Heq Hin]].
  inversion Heq; subst. eauto.
Qed.

(** *** Where the statements of [process_log_file] come from *)

Lemma converted_row_In (rs conv : list (Z * row)) i r' :
  convert_column "ts" rs = inr conv -> In (i, r') conv ->
  exists line, In (i, line) rs
               /\ get r' "ts" = converted_cell (get line "ts")
               /\ forall c, String.eqb "ts" c = false -> get r' c = get line c.
Proof.
  intros Hc Hin. apply convert_column_map in Hc. subst conv.
  apply in_map_iff in Hin. destruct Hin as [[j line] [Heq Hin]].
  inversion Heq; subst. exists line. split; [exact Hin|]. split.
  - apply get_set_same.
  - intros c Hne. now apply get_set_other.
Qed.

Section LogFile.

Variable read_json : string -> option DataFrame.
Variable cur : cursor.
Variable filepath : string.
Variable df : DataFrame.
Hypothesis Hread : read_json filepath = Some df.

Lemma process_log_file_statements i q params ok :
  In (Executed i q params ok) (trace (process_log_file read_json cur filepath)) ->
  exists line, In (i, line) (rows df) /\ issued_for q params line.
Proof.
  unfold process_log_file. rewrite Hread.
  destruct (negb (has_column (columns df) "ts")); [intros []|].
  destruct (convert_column "ts" (rows df)) as [e|conv] eqn:Hconv; [intros []|].
  cbn [columns].
  destruct (negb (has_column (columns df) "page")); [intros []|].
  destruct (insert_time_records cur (time_df (mkDataFrame (columns df) conv)))
    as [cur1 tr1] eqn:Htime.
  assert (Htr1 : In (Executed i q params ok) tr1 ->
                 exists line, In (i, line) (rows df) /\ issued_for q params line).
  { intros H. replace tr1 with (snd (insert_time_records cur
                 (time_df (mkDataFrame (columns df) conv)))) in H
      by now rewrite Htime.
    apply insert_time_records_events in H. destruct H as [Hq H]. subst q.
    unfold time_df in H. apply in_map_iff in H.
    destruct H as [[j r'] [Heq H]]. cbn [fst snd] in Heq.
    inversion Heq; subst. unfold t, boolean_mask in H. cbn [rows] in H.
    apply filter_In in H. destruct H as [H Hpage]. cbn [snd] in Hpage.
    destruct (converted_row_In _ _ _ _ Hconv H) as [line [Hline [Hts Hget]]].
    exists line. split; [exact Hline|]. cbn [issued_for snd].
    rewrite <- (Hget "page" eq_refl), <- Hts. auto. }
  destruct (getitem_columns (mkDataFrame (columns df) conv) user_columns)
    as [user_df|] eqn:Huser.
  2:{ cbn [trace]. intros H. apply in_app_or in H.
      destruct H as [H|[H|[]]]; [auto|discriminate]. }
  destruct (insert_user_records cur1 (columns (nonempty_users user_df))
              (rows (nonempty_users user_df))) as [cur2 tr2] eqn:Husers.
  assert (Htr2 : In (Executed i q params ok) tr2 ->
                 exists line, In (i, line) (rows df) /\ issued_for q params line).
  { intros H. replace tr2 with (snd (insert_user_records cur1
                 (columns (nonempty_users user_df))
                 (rows (nonempty_users user_df)))) in H
      by now rewrite Husers.
    apply insert_user_records_events in H.
    destruct H as [Hq [r' [H Hparams]]]. subst q.
    unfold getitem_columns in Huser.
    destruct (forallb (has_column (columns (mkDataFrame (columns df) conv)))
                user_columns); [|discriminate].
    inversion Huser; subst user_df; clear Huser.
    unfold nonempty_users, boolean_mask in H, Hparams.
    cbn [rows columns] in H, Hparams.
    apply filter_In in H. destruct H as [H Hid]. cbn [snd] in Hid.
    apply in_map_iff in H. destruct H as [[j r2] [Heq H]].
    cbn [fst snd] in Heq. inversion Heq; subst; clear Heq.
    destruct (converted_row_In _ _ _ _ Hconv H) as [line [Hline [_ Hget]]].
    exists line. split; [exact Hline|]. cbn [issued_for].
    simpl in Hid. split.
    - now rewrite <- (Hget "userId" eq_refl).
    - unfold tolist, user_columns. simpl.
      now rewrite !Hget by reflexivity. }
  destruct (dropna (mkDataFrame (columns df) conv) ["artist"; "song"; "length"])
    as [played|] eqn:Hdrop.
  2:{ cbn [trace]. intros H. apply in_app_or in H. destruct H; auto. }
  cbn [trace]. intros H. apply in_app_or in H. destruct H as [H|H]; [auto|].
  apply in_app_or in H. destruct H as [H|H]; [auto|].
  apply insert_songplay_records_events in H. destruct H as [Hq [r' H]].
  unfold dropna in Hdrop.
  destruct (forallb (has_column (columns (mkDataFrame (columns df) conv)))
              ["artist"; "song"; "length"]); [|discriminate].
  inversion Hdrop; subst played; clear Hdrop.
  unfold boolean_mask in H. cbn [rows] in H.
  apply filter_In in H. destruct H as [H Hna]. cbn [snd forallb] in Hna.
  destruct (converted_row_In _ _ _ _ Hconv H) as [line [Hline [_ Hget]]].
  exists line. split; [exact Hline|].
  rewrite (Hget "artist" eq_refl), (Hget "song" eq_refl),
          (Hget "length" eq_refl) in Hna.
  apply andb_true_iff in Hna. destruct Hna as [Ha Hna].
  apply andb_true_iff in Hna. destruct Hna as [Hs Hna].
  apply andb_true_iff in Hna. destruct Hna as [Hl _].
  apply negb_true_iff in Ha, Hs, Hl.
  destruct Hq; subst q; cbn [issued_for]; auto.
Qed.

End LogFile.

End EtlFacts.

Module LogFileFacts.
Import Pandas Psycopg2 Etl EtlFacts Samples.

Lemma eq_str_true (v : value) (s : string) : eq_str v s = true -> v = Str s.
Proof.
  destruct v; simpl; try discriminate. intros H.
  apply String.eqb_eq in H. now subst.
Qed.

Lemma unique_label {A : Type} (l : list (Z * A)) (i : Z) (a b : A) :
  NoDup (map fst l) -> In (i, a) l -> In (i, b) l -> a = b.
Proof.
  induction l as [|[j c] l IH]; simpl; [intros _ []|].
  intros Hnd Ha Hb. inversion Hnd as [|? ? Hnot Hnd']; subst.
  destruct Ha as [Ha|Ha], Hb as [Hb|Hb].
  - congruence.
  - inversion Ha; subst. exfalso. apply Hnot.
    apply in_map_iff. exists (i, b). auto.
  - inversion Hb; subst. exfalso. apply Hnot.
    apply in_map_iff. exists (i, a). auto.
  - auto.
Qed.

(** The user inserts of a log file, under the conditions that let the run
    reach the user block. *)
Lemma user_attempts read_json cur filepath df conv :
  read_json filepath = Some df ->
  has_column (columns df) "ts" = true ->
  convert_column "ts" (rows df) = inr conv ->
  has_column (columns df) "page" = true ->
  forallb (has_column (columns df)) user_columns = true ->
  attempts user_table_insert (trace (process_log_file read_json cur filepath))
  = map (fun ir => (fst ir, tolist user_columns (snd ir)))
        (filter (fun ir => ne_str (get (snd ir) "userId") EmptyString) (rows df)).
Proof.
  intros Hread Hts Hconv Hpage Hcols.
  unfold process_log_file. rewrite Hread, Hts, Hconv. cbn [negb columns].
  rewrite Hpage. cbn [negb].
  destruct (insert_time_records cur (time_df (mkDataFrame (columns df) conv)))
    as [cur1 tr1] eqn:Htime.
  assert (Htr1 : attempts user_table_insert tr1 = []).
  { replace tr1 with (snd (insert_time_records cur
                 (time_df (mkDataFrame (columns df) conv))))
      by now rewrite Htime.
    now rewrite insert_time_records_attempts. }
  unfold getitem_columns. cbn [columns rows]. rewrite Hcols.
  match goal with
  | |- context [insert_user_records cur1 ?c ?r] =>
      destruct (insert_user_records cur1 c r) as [cur2 tr2] eqn:Husers;
      assert (Htr2 : attempts user_table_insert tr2
                     = map (fun ir => (fst ir, tolist c (snd ir))) r)
  end.
  { match goal with
    | |- _ = map _ ?r =>
        replace tr2 with (snd (insert_user_records cur1 user_columns r))
          by (cbn [nonempty_users boolean_mask columns] in Husers;
              now rewrite Husers)
    end.
    now rewrite insert_user_records_attempts. }
  assert (Hall : attempts user_table_insert tr1 ++ attempts user_table_insert tr2
                 = map (fun ir => (fst ir, tolist user_columns (snd ir)))
                       (filter (fun ir => ne_str (get (snd ir) "userId") EmptyString)
                               (rows df))).
  { rewrite Htr1, Htr2. cbn [app].
    unfold nonempty_users, boolean_mask. cbn [rows columns].
    rewrite (convert_column_map _ _ _ Hconv).
    rewrite map_map, filter_map_commute, map_map.
    cbn [fst snd].
    erewrite filter_ext; [apply map_ext|].
    - intros [i r]. cbn [fst snd]. f_equal.
    - intros [i r]. cbn [fst snd]. reflexivity. }
  destruct (dropna (mkDataFrame (columns df) conv) ["artist"; "song"; "length"])
    as [played|]; cbn [trace].
  - rewrite !attempts_app.
    rewrite insert_songplay_records_attempts_other by discriminate.
    now rewrite app_nil_r.
  - now rewrite attempts_app.
Qed.

(** C1, as amended -- a line whose page is not NextSong yields no time
    record; it yields no song lookup and no songplay record when its
    artist, song or length is missing.  (Lines are told apart by their
    index labels, which [read_json] makes distinct.) *)
Theorem other_page_line_records read_json cur filepath df i line :
  read_json filepath = Some df ->
  NoDup (map fst (rows df)) ->
  In (i, line) (rows df) ->
  get line "page" <> Str page ->
  (forall params ok,
      ~ In (Executed i time_table_insert params ok)
           (trace (process_log_file read_json cur filepath)))
  /\ (isna (get line "artist") || isna (get line "song")
      || isna (get line "length") = true ->
      forall params ok,
        ~ In (Executed i song_select params ok)
             (trace (process_log_file read_json cur filepath))
        /\ ~ In (Executed i songplay_table_insert params ok)
                (trace (process_log_file read_json cur filepath))).
Proof.
  intros Hread Hnd Hin Hpage. split.
  - intros params ok H.
    destruct (process_log_file_statements _ _ _ _ Hread _ _ _ _ H)
      as [line' [Hin' [Hp _]]].
    rewrite (unique_label _ _ _ _ Hnd Hin Hin') in Hpage.
    apply Hpage. now apply eq_str_true.
  - intros Hna params ok.
    assert (Hno : forall q, q = song_select \/ q = songplay_table_insert ->
                  ~ In (Executed i q params ok)
                       (trace (process_log_file read_json cur filepath))).
    { intros q Hq H.
      destruct (process_log_file_statements _ _ _ _ Hread _ _ _ _ H)
        as [line' [Hin' Hissued]].
      rewrite <- (unique_label _ _ _ _ Hnd Hin Hin') in Hissued.
      destruct Hq; subst q; cbn [issued_for] in Hissued;
        destruct Hissued as [Ha [Hs Hl]]; rewrite Ha, Hs, Hl in Hna;
        discriminate. }
    split; apply Hno; auto.
Qed.

Lemma other_page_line_records_witness :
  (forall params ok,
      ~ In (Executed 2 time_table_insert params ok)
           (trace (process_log_file read_json (loaded_cursor []) "log.json")))
  /\ (forall params ok,
        ~ In (Executed 2 song_select params ok)
             (trace (process_log_file read_json (loaded_cursor []) "log.json"))
        /\ ~ In (Executed 2 songplay_table_insert params ok)
                (trace (process_log_file read_json (loaded_cursor []) "log.json"))).
Proof.
  assert (Hnd : NoDup (map fst (rows log_frame))).
  { repeat constructor; simpl; intuition discriminate. }
  assert (Hin : In (2, anonymous_line) (rows log_frame)).
  { simpl. auto. }
  assert (Hpage : get anonymous_line "page" <> Str page).
  { discriminate. }
  destruct (other_page_line_records read_json (loaded_cursor []) "log.json"
              log_frame 2 anonymous_line eq_refl Hnd Hin Hpage) as [H1 H2].
  split; [exact H1|exact (H2 eq_refl)].
Defined.

(** C1, as stated, fails: the only line of [home.json] has page Home and
    names an artist, a song and a length; processing the file looks the
    song up and inserts a songplay record for that line. *)
Lemma other_page_line_counterexample :
  In (0, home_line) (rows home_frame)
  /\ get home_line "page" = Str "Home"
  /\ In (Executed 0 songplay_table_insert
           [Timestamp 1541122000000; Str "8"; Str "paid"; Null; Null;
            Int 140; Str "York"; Str "Mozilla"] true)
        (trace (process_log_file read_json (loaded_cursor []) "home.json"))
  /\ songplays (final (process_log_file read_json (loaded_cursor []) "home.json"))
     = [[Timestamp 1541122000000; Str "8"; Str "paid"; Null; Null;
         Int 140; Str "York"; Str "Mozilla"]].
Proof.
  split; [simpl; auto|]. split; [reflexivity|].
  split; [vm_compute; auto|reflexivity].
Qed.

(** C8 -- a log file yields one user insert per line whose userId is not
    the empty string, in line order, each with the line's (userId,
    firstName, lastName, gender, level); a line whose userId is the empty
    string yields none. *)
Theorem user_records_in_line_order read_json cur filepath df conv :
  read_json filepath = Some df ->
  has_column (columns df) "ts" = true ->
  convert_column "ts" (rows df) = inr conv ->
  has_column (columns df) "page" = true ->
  forallb (has_column (columns df)) user_columns = true ->
  attempts user_table_insert (trace (process_log_file read_json cur filepath))
  = map (fun ir =>
           (fst ir,
            [get (snd ir) "userId"; get (snd ir) "firstName";
             get (snd ir) "lastName"; get (snd ir) "gender";
             get (snd ir) "level"]))
        (filter (fun ir => negb (eq_str (get (snd ir) "userId") EmptyString))
                (rows df))
  /\ forall i params ok,
       In (Executed i user_table_insert params ok)
          (trace (process_log_file read_json cur filepath)) ->
       exists line, In (i, line) (rows df)
                    /\ get line "userId" <> Str EmptyString.
Proof.
  intros Hread Hts Hconv Hpage Hcols. split.
  - now rewrite (user_attempts _ cur _ _ _ Hread Hts Hconv Hpage Hcols).
  - intros i params ok H.
    destruct (process_log_file_statements _ _ _ _ Hread _ _ _ _ H)
      as [line [Hin [Hid _]]].
    exists line. split; [exact Hin|]. intros Heq. rewrite Heq in Hid.
    discriminate.
Qed.

Lemma user_records_in_line_order_witness :
  attempts user_table_insert
    (trace (process_log_file read_json (loaded_cursor []) "log.json"))
  = [(0, [Str "7"; Str "Ada"; Str "Byron"; Str "F"; Str "free"]);
     (1, [Str "8"; Str "Bob"; Str "Crane"; Str "M"; Str "paid"]);
     (3, [Null; Null; Null; Null; Str "free"])].
Proof.
  exact (proj1 (user_records_in_line_order read_json (loaded_cursor [])
                  "log.json" log_frame _ eq_refl eq_refl eq_refl eq_refl
                  eq_refl)).
Defined.

(** C10 -- only the empty string is filtered out: a line whose userId is
    missing still has its user insert attempted, with the missing value
    as the user id. *)
Theorem missing_user_id_is_inserted read_json cur filepath df conv i line :
  read_json filepath = Some df ->
  has_column (columns df) "ts" = true ->
  convert_column "ts" (rows df) = inr conv ->
  has_column (columns df) "page" = true ->
  forallb (has_column (columns df)) user_columns = true ->
  In (i, line) (rows df) ->
  isna (get line "userId") = true ->
  exists ok,
    In (Executed i user_table_insert
          [get line "userId"; get line "firstName"; get line "lastName";
           get line "gender"; get line "level"] ok)
       (trace (process_log_file read_json cur filepath)).
Proof.
  intros Hread Hts Hconv Hpage Hcols Hin Hna.
  apply In_attempts.
  rewrite (user_attempts _ cur _ _ _ Hread Hts Hconv Hpage Hcols).
  apply in_map_iff. exists (i, line). split; [reflexivity|].
  apply filter_In. split; [exact Hin|]. cbn [snd].
  destruct (get line "userId"); try discriminate; reflexivity.
Qed.

Lemma missing_user_id_is_inserted_witness :
  exists ok,
    In (Executed 3 user_table_insert [Null; Null; Null; Null; Str "free"] ok)
       (trace (process_log_file read_json (loaded_cursor []) "log.json")).
Proof.
  apply (missing_user_id_is_inserted read_json (loaded_cursor []) "log.json"
           log_frame _ 3 nobody_line eq_refl eq_refl eq_refl eq_refl eq_refl).
  - simpl. auto.
  - reflexivity.
Defined.

(** *** The songplay loop *)

Lemma execute_ok q params cur :
  hd false (faults cur) = false ->
  execute q params cur = (run_query q params (next_call cur), true).
Proof.
  unfold execute. destruct (faults cur) as [|[|] fs]; simpl;
    intros H; try reflexivity; discriminate.
Qed.

Lemma execute_fault q params cur :
  hd false (faults cur) = true ->
  execute q params cur = (next_call cur, false).
Proof.
  unfold execute. destruct (faults cur) as [|[|] fs]; simpl;
    intros H; try reflexivity; discriminate.
Qed.

Lemma songplay_data_ok cols r songid artistid :
  forallb (has_column cols) songplay_attributes = true ->
  songplay_data cols r songid artistid
  = inr [get r "ts"; get r "userId"; get r "level"; songid; artistid;
         get r "sessionId"; get r "location"; get r "userAgent"].
Proof.
  unfold songplay_attributes. cbn [forallb]. intros H.
  repeat (apply andb_true_iff in H; destruct H as [?H H]).
  unfold songplay_data, getattr.
  repeat match goal with
         | Hc : has_column cols _ = true |- _ => rewrite Hc; clear Hc
         end.
  reflexivity.
Qed.

Lemma song_select_rows_In songs artists title name duration m :
  In m (song_select_rows songs artists title name duration) ->
  exists s a, In s songs /\ In a artists
              /\ m = (field 0 s, field 0 a)
              /\ sql_eq (field 2 s) (field 0 a) = true
              /\ sql_eq (field 1 s) title = true
              /\ sql_eq (field 1 a) name = true
              /\ sql_eq (field 4 s) duration = true.
Proof.
  unfold song_select_rows. intros H.
  apply in_flat_map in H. destruct H as [s [Hs H]].
  apply in_flat_map in H. destruct H as [a [Ha H]].
  destruct (sql_eq (field 2 s) (field 0 a)) eqn:E1; [|destruct H].
  destruct (sql_eq (field 1 s) title) eqn:E2; [|destruct H].
  destruct (sql_eq (field 1 a) name) eqn:E3; [|destruct H].
  destruct (sql_eq (field 4 s) duration) eqn:E4; [|destruct H].
  destruct H as [H|[]]. exists s, a. repeat split; auto.
Qed.

Lemma fetchone_after_select cur title name duration :
  exists cur2,
    fetchone (run_query song_select [title; name; duration] cur)
    = (hd_error (song_select_rows (songs cur) (artists cur)
                   title name duration), cur2).
Proof.
  unfold fetchone. cbn [run_query results field nth].
  destruct (song_select_rows (songs cur) (artists cur) title name duration);
    eauto.
Qed.

Lemma resolved_ids_hd (found : list (value * value)) :
  resolved_ids (hd_error found) = hd (Null, Null) found.
Proof. destruct found as [|[songid artistid] rest]; reflexivity. Qed.

Lemma sql_eq_float_differs (d l : Q) :
  ~ (d == l)%Q -> sql_eq (Float d) (Float l) = false.
Proof.
  intros H. simpl. destruct (Qeq_bool d l) eqn:E; [|reflexivity].
  apply Qeq_bool_eq in E. contradiction.
Qed.

(** C2 -- the fact resolver.  When the lookup does not raise, the event
    gets a songplay insert whose song_id and artist_id are those of the
    first row that the (title, artist name, duration) lookup returns, and
    are both null when it returns none; nothing is logged for a missing
    match; ids that are not null belong to a song and an artist of the
    store that match the event exactly; a duration that differs from the
    event's length, by however little, is no match. *)
Theorem fact_resolver cur cols index r records :
  hd false (faults cur) = false ->
  forallb (has_column cols) songplay_attributes = true ->
  let found := song_select_rows (songs cur) (artists cur)
                 (get r "song") (get r "artist") (get r "length") in
  let ids := hd (Null, Null) found in
  let lookup := [get r "song"; get r "artist"; get r "length"] in
  let data := [get r "ts"; get r "userId"; get r "level"; fst ids; snd ids;
               get r "sessionId"; get r "location"; get r "userAgent"] in
  (exists cur3 ok,
      insert_songplay_records cur cols ((index, r) :: records)
      = mkRun (final (insert_songplay_records cur3 cols records))
              (Executed index song_select lookup true
               :: Executed index songplay_table_insert data ok
               :: (if ok
                   then trace (insert_songplay_records cur3 cols records)
                   else Warning songplay_insert_failed
                        :: trace (insert_songplay_records cur3 cols records)))
              (result (insert_songplay_records cur3 cols records)))
  /\ (forall m rest, found = m :: rest -> ids = m)
  /\ (found = [] -> ids = (Null, Null))
  /\ (ids = (Null, Null)
      \/ exists s a, In s (songs cur) /\ In a (artists cur)
                     /\ ids = (field 0 s, field 0 a)
                     /\ sql_eq (field 1 s) (get r "song") = true
                     /\ sql_eq (field 1 a) (get r "artist") = true
                     /\ sql_eq (field 4 s) (get r "length") = true)
  /\ ((forall s, In s (songs cur) ->
                 sql_eq (field 4 s) (get r "length") = false) ->
      ids = (Null, Null))
  /\ (forall d l, ~ (d == l)%Q -> sql_eq (Float d) (Float l) = false).
Proof.
  intros Hok Hcols found ids lookup data.
  assert (Hnull : found = [] -> ids = (Null, Null)).
  { intros H. unfold ids. now rewrite H. }
  assert (Hmem : ids = (Null, Null) \/ In ids found).
  { unfold ids. destruct found as [|m rest]; simpl; auto. }
  split; [|split; [|split; [exact Hnull|split; [|split]]]].
  - cbn [insert_songplay_records].
    rewrite (execute_ok song_select _ cur Hok).
    destruct (fetchone_after_select (next_call cur) (get r "song")
                (get r "artist") (get r "length")) as [cur2 Hfetch].
    cbn [next_call songs artists] in Hfetch. fold found in Hfetch.
    rewrite Hfetch, resolved_ids_hd. fold ids. unfold data.
    destruct ids as [songid artistid]. cbn [fst snd].
    rewrite songplay_data_ok by exact Hcols.
    match goal with
    | |- context [execute songplay_table_insert ?d ?c] =>
        destruct (execute songplay_table_insert d c) as [cur3 ok]
    end.
    exists cur3, ok. reflexivity.
  - intros m rest H. unfold ids. now rewrite H.
  - destruct Hmem as [H|H]; [now left|right].
    apply song_select_rows_In in H.
    destruct H as [s [a [Hs [Ha [Hids [_ [Ht [Hn Hd]]]]]]]].
    exists s, a. auto 10.
  - intros Hall. destruct Hmem as [H|H]; [exact H|].
    apply song_select_rows_In in H.
    destruct H as [s [a [Hs [Ha [Hids [_ [Ht [Hn Hd]]]]]]]].
    rewrite (Hall s Hs) in Hd. discriminate.
  - exact sql_eq_float_differs.
Qed.

Lemma fact_resolver_witness :
  (exists cur3 ok,
      insert_songplay_records (loaded_cursor []) log_file_columns
        [(1, home_line)]
      = mkRun (final (insert_songplay_records cur3 log_file_columns []))
              (Executed 1 song_select [Str "X"; Str "Nirvana"; Float (401 # 2)]
                 true
               :: Executed 1 songplay_table_insert
                    [Int 1541122000000; Str "8"; Str "paid"; Null; Null;
                     Int 140; Str "York"; Str "Mozilla"] ok
               :: (if ok
                   then trace (insert_songplay_records cur3 log_file_columns [])
                   else Warning songplay_insert_failed
                        :: trace (insert_songplay_records cur3
                                    log_file_columns [])))
              (result (insert_songplay_records cur3 log_file_columns [])))
  /\ hd (Null, Null)
        (song_select_rows (songs (loaded_cursor [])) (artists (loaded_cursor []))
           (Str "X") (Str "Nirvana") (Float (200 # 1)))
     = (Str "S1", Str "A1")
  /\ hd (Null, Null)
        (song_select_rows (songs (loaded_cursor [])) (artists (loaded_cursor []))
           (Str "X") (Str "Nirvana") (Float (401 # 2)))
     = (Null, Null).
Proof.
  destruct (fact_resolver (loaded_cursor []) log_file_columns 1 home_line []
              eq_refl eq_refl) as [Hrun [_ [_ [_ [Hdiffers Hfloat]]]]].
  destruct (fact_resolver (loaded_cursor []) log_file_columns 0 play_line []
              eq_refl eq_refl) as [_ [Hfirst _]].
  split; [exact Hrun|]. split.
  - exact (Hfirst (Str "S1", Str "A1") [] eq_refl).
  - apply Hdiffers. intros s [Hs|[]]. subst s.
    apply Hfloat. intros H. discriminate H.
Defined.

(** C7 -- a lookup that raises skips its event: the failure is logged, no
    songplay insert is issued for the event, the tables stay as they
    were, and the loop goes on with the remaining events. *)
Theorem lookup_failure_skips_event cur cols index r records :
  hd false (faults cur) = true ->
  ~ In index (map fst records) ->
  let lookup := [get r "song"; get r "artist"; get r "length"] in
  let rest := insert_songplay_records (next_call cur) cols records in
  insert_songplay_records cur cols ((index, r) :: records)
  = mkRun (final rest)
          (Executed index song_select lookup false
           :: Warning song_select_failed :: trace rest)
          (result rest)
  /\ songplays (next_call cur) = songplays cur
  /\ forall params ok,
       ~ In (Executed index songplay_table_insert params ok)
            (trace (insert_songplay_records cur cols ((index, r) :: records))).
Proof.
  intros Hfault Hfresh lookup rest.
  assert (Hrun : insert_songplay_records cur cols ((index, r) :: records)
                 = mkRun (final rest)
                         (Executed index song_select lookup false
                          :: Warning song_select_failed :: trace rest)
                         (result rest)).
  { cbn [insert_songplay_records].
    now rewrite (execute_fault song_select _ cur Hfault). }
  split; [exact Hrun|]. split; [reflexivity|].
  intros params ok. rewrite Hrun. cbn [trace].
  intros [H|[H|H]]; try discriminate.
  apply insert_songplay_records_events in H. destruct H as [_ [r' H]].
  apply Hfresh. apply in_map_iff. exists (index, r'). auto.
Qed.

Lemma lookup_failure_skips_event_witness :
  trace (insert_songplay_records (loaded_cursor [true]) log_file_columns
           [(0, play_line); (1, home_line)])
  = [Executed 0 song_select [Str "X"; Str "Nirvana"; Float (200 # 1)] false;
     Warning song_select_failed;
     Executed 1 song_select [Str "X"; Str "Nirvana"; Float (401 # 2)] true;
     Executed 1 songplay_table_insert
       [Int 1541122000000; Str "8"; Str "paid"; Null; Null;
        Int 140; Str "York"; Str "Mozilla"] true]
  /\ forall params ok,
       ~ In (Executed 0 songplay_table_insert params ok)
            (trace (insert_songplay_records (loaded_cursor [true])
                      log_file_columns [(0, play_line); (1, home_line)])).
Proof.
  assert (Hfresh : ~ In 0 (map fst [(1, home_line)])).
  { simpl. intuition discriminate. }
  destruct (lookup_failure_skips_event (loaded_cursor [true]) log_file_columns
              0 play_line [(1, home_line)] eq_refl Hfresh) as [Hrun [_ Hnone]].
  split; [|exact Hnone].
  rewrite Hrun. reflexivity.
Defined.

End LogFileFacts.

Module SongFileFacts.
Import Pandas Psycopg2 Etl EtlFacts Samples.

Lemma execute_songs_artist_insert params cur :
  songs (fst (execute artist_table_insert params cur)) = songs cur.
Proof. unfold execute. destruct (faults cur) as [|[|] fs]; reflexivity. Qed.

(** C5, as amended -- a song file whose extraction fails never gets a song
    insert; when the file cannot be read or its artist record cannot be
    extracted, no statement at all is executed and the store is left as
    it was.  When only the song record cannot be extracted, the artist
    insert is attempted first: if the store accepts it, the artist
    record is inserted and no song record follows; if the store refuses
    it, nothing is inserted. *)
Theorem malformed_song_file read_json cur filepath :
  (read_json filepath = None
   \/ exists df, read_json filepath = Some df
                 /\ (artist_data df = None \/ song_data df = None)) ->
  attempts song_table_insert (trace (process_song_file read_json cur filepath))
  = []
  /\ songs (final (process_song_file read_json cur filepath)) = songs cur
  /\ ((read_json filepath = None
       \/ exists df, read_json filepath = Some df /\ artist_data df = None) ->
      statements (trace (process_song_file read_json cur filepath)) = []
      /\ final (process_song_file read_json cur filepath) = cur)
  /\ (forall df a,
        read_json filepath = Some df ->
        artist_data df = Some a -> song_data df = None ->
        attempts artist_table_insert
          (trace (process_song_file read_json cur filepath))
        = [(first_label df, a)]
        /\ (hd false (faults cur) = false ->
            process_song_file read_json cur filepath
            = mkRun (run_query artist_table_insert a (next_call cur))
                    [Executed (first_label df) artist_table_insert a true;
                     Warning "Error: Could not extract song columns from df"]
                    Returned)
        /\ (hd false (faults cur) = true ->
            process_song_file read_json cur filepath
            = mkRun (next_call cur)
                    [Executed (first_label df) artist_table_insert a false;
                     Warning "Error: Could not insert artist record in artist table"]
                    Returned
            /\ artists (next_call cur) = artists cur)).
Proof.
  intros H. split; [|split; [|split]].
  - unfold process_song_file.
    destruct (read_json filepath) as [df|] eqn:Hread; [|reflexivity].
    destruct (artist_data df) as [a|] eqn:Ha; [|reflexivity].
    assert (Hs : song_data df = None).
    { destruct H as [H|[df' [Hdf' [H|H]]]]; try discriminate;
        inversion Hdf'; subst df'; [congruence|exact H]. }
    rewrite Hs. destruct (execute artist_table_insert a cur) as [cur1 ok].
    now destruct ok.
  - unfold process_song_file.
    destruct (read_json filepath) as [df|] eqn:Hread; [|reflexivity].
    destruct (artist_data df) as [a|] eqn:Ha; [|reflexivity].
    assert (Hs : song_data df = None).
    { destruct H as [H|[df' [Hdf' [H|H]]]]; try discriminate;
        inversion Hdf'; subst df'; [congruence|exact H]. }
    rewrite Hs.
    pose proof (execute_songs_artist_insert a cur) as Hsongs.
    destruct (execute artist_table_insert a cur) as [cur1 ok].
    cbn [fst] in Hsongs. now destruct ok.
  - intros H'. unfold process_song_file.
    destruct (read_json filepath) as [df|] eqn:Hread; [|cbn; auto].
    destruct (artist_data df) as [a|] eqn:Ha; [|cbn; auto].
    destruct H' as [H'|[df' [Hdf' H']]]; [discriminate|].
    inversion Hdf'; subst df'. congruence.
  - intros df a Hread Ha Hs. unfold process_song_file.
    rewrite Hread, Ha, Hs. split; [|split].
    + destruct (execute artist_table_insert a cur) as [cur1 ok].
      now destruct ok.
    + intros Hok. now rewrite (LogFileFacts.execute_ok _ _ _ Hok).
    + intros Hfault. rewrite (LogFileFacts.execute_fault _ _ _ Hfault).
      split; reflexivity.
Qed.

Lemma malformed_song_file_witness :
  attempts song_table_insert
    (trace (process_song_file read_json (empty_cursor []) "untitled.json")) = []
  /\ songs (final (process_song_file read_json (empty_cursor []) "untitled.json"))
     = []
  /\ statements (trace (process_song_file read_json (empty_cursor []) "absent.json"))
     = []
  /\ final (process_song_file read_json (empty_cursor []) "absent.json")
     = empty_cursor []
  /\ trace (process_song_file read_json (empty_cursor []) "untitled.json")
     = [Executed 0 artist_table_insert
          [Str "A1"; Str "Nirvana"; Null; Null; Null] true;
        Warning "Error: Could not extract song columns from df"]
  /\ trace (process_song_file read_json (empty_cursor [true]) "untitled.json")
     = [Executed 0 artist_table_insert
          [Str "A1"; Str "Nirvana"; Null; Null; Null] false;
        Warning "Error: Could not insert artist record in artist table"].
Proof.
  destruct (malformed_song_file read_json (empty_cursor []) "untitled.json")
    as [H1 [H2 [_ H4]]].
  { right. exists untitled_frame. split; [reflexivity|now right]. }
  destruct (malformed_song_file read_json (empty_cursor []) "absent.json")
    as [_ [_ [H3 _]]].
  { now left. }
  destruct (malformed_song_file read_json (empty_cursor [true]) "untitled.json")
    as [_ [_ [_ H5]]].
  { right. exists untitled_frame. split; [reflexivity|now right]. }
  split; [exact H1|]. split; [exact H2|].
  destruct (H3 (or_introl eq_refl)) as [H3a H3b].
  split; [exact H3a|]. split; [exact H3b|].
  destruct (H4 untitled_frame _ eq_refl eq_refl eq_refl) as [_ [Haccept _]].
  destruct (H5 untitled_frame _ eq_refl eq_refl eq_refl) as [_ [_ Hrefuse]].
  split.
  - rewrite (Haccept eq_refl). reflexivity.
  - rewrite (proj1 (Hrefuse eq_refl)). reflexivity.
Defined.

(** C5, as stated, fails: [untitled.json] has no title field, so its song
    record cannot be extracted; by then its artist record has been
    inserted. *)
Lemma malformed_song_file_counterexample :
  read_json "untitled.json" = Some untitled_frame
  /\ song_data untitled_frame = None
  /\ trace (process_song_file read_json (empty_cursor []) "untitled.json")
     = [Executed 0 artist_table_insert
          [Str "A1"; Str "Nirvana"; Null; Null; Null] true;
        Warning "Error: Could not extract song columns from df"]
  /\ artists (final (process_song_file read_json (empty_cursor []) "untitled.json"))
     = [[Str "A1"; Str "Nirvana"; Null; Null; Null]].
Proof. repeat split; reflexivity. Qed.

(** C6 -- on a valid song file whose artist insert raises, the run logs
    the failure and returns: the song insert is never attempted.  The
    loops of the log file, in contrast, go on after a failed insert. *)
Theorem artist_insert_failure_skips_song :
  song_data song_frame
  = Some [Str "S1"; Str "X"; Str "A1"; Int 1994; Float (200 # 1)]
  /\ trace (process_song_file read_json (empty_cursor [true]) "song.json")
     = [Executed 0 artist_table_insert
          [Str "A1"; Str "Nirvana"; Null; Null; Null] false;
        Warning "Error: Could not insert artist record in artist table"]
  /\ attempts song_table_insert
       (trace (process_song_file read_json (empty_cursor [true]) "song.json"))
     = []
  /\ attempts user_table_insert
       (trace (process_log_file read_json (loaded_cursor [true; true]) "log.json"))
     = [(0, [Str "7"; Str "Ada"; Str "Byron"; Str "F"; Str "free"]);
        (1, [Str "8"; Str "Bob"; Str "Crane"; Str "M"; Str "paid"]);
        (3, [Null; Null; Null; Null; Str "free"])].
Proof. repeat split; reflexivity. Qed.

Lemma time_attempt_is_time_data read_json cur filepath i params :
  In (i, params)
     (attempts time_table_insert (trace (process_log_file read_json cur filepath))) ->
  params = time_data (field 0 params).
Proof.
  intros H. apply In_attempts in H. destruct H as [ok H].
  destruct (read_json filepath) as [df|] eqn:Hread.
  - destruct (process_log_file_statements _ _ _ _ Hread _ _ _ _ H)
      as [line [_ [_ Hp]]].
    rewrite Hp. reflexivity.
  - unfold process_log_file in H. rewrite Hread in H.
    destruct H as [H|[]]. discriminate.
Qed.

(** C9 -- extraction is deterministic.  The artist and song records handed
    to the store depend on the file content only, not on the path, the
    cursor or the state of the store; and two time records for the same
    timestamp, from whatever runs, are the same record. *)
Theorem extraction_is_deterministic :
  (forall read1 path1 cur1 read2 path2 cur2 df a s,
      read1 path1 = Some df -> read2 path2 = Some df ->
      artist_data df = Some a -> song_data df = Some s ->
      attempts artist_table_insert (trace (process_song_file read1 cur1 path1))
      = [(first_label df, a)]
      /\ attempts artist_table_insert (trace (process_song_file read2 cur2 path2))
         = [(first_label df, a)]
      /\ forall x y,
           In x (attempts song_table_insert
                   (trace (process_song_file read1 cur1 path1))) ->
           In y (attempts song_table_insert
                   (trace (process_song_file read2 cur2 path2))) ->
           x = (first_label df, s) /\ y = x)
  /\ (forall read1 path1 cur1 read2 path2 cur2 i1 p1 i2 p2,
        In (i1, p1) (attempts time_table_insert
                       (trace (process_log_file read1 cur1 path1))) ->
        In (i2, p2) (attempts time_table_insert
                       (trace (process_log_file read2 cur2 path2))) ->
        field 0 p1 = field 0 p2 -> p1 = p2).
Proof.
  split.
  - intros read1 path1 cur1 read2 path2 cur2 df a s H1 H2 Ha Hs.
    assert (Hrun : forall read path cur, read path = Some df ->
              attempts artist_table_insert (trace (process_song_file read cur path))
              = [(first_label df, a)]
              /\ forall x, In x (attempts song_table_insert
                                   (trace (process_song_file read cur path))) ->
                           x = (first_label df, s)).
    { intros read path cur Hread. unfold process_song_file.
      rewrite Hread, Ha, Hs.
      destruct (execute artist_table_insert a cur) as [cur1' ok].
      destruct ok; cbn [negb].
      - destruct (execute song_table_insert s cur1') as [cur2' ok2].
        destruct ok2; cbn; split; try reflexivity; intros x [Hx|[]]; auto.
      - cbn. split; [reflexivity|intros x []]. }
    destruct (Hrun read1 path1 cur1 H1) as [Ha1 Hs1].
    destruct (Hrun read2 path2 cur2 H2) as [Ha2 Hs2].
    split; [exact Ha1|]. split; [exact Ha2|].
    intros x y Hx Hy. rewrite (Hs1 x Hx), (Hs2 y Hy). auto.
  - intros read1 path1 cur1 read2 path2 cur2 i1 p1 i2 p2 Hp1 Hp2 Heq.
    rewrite (time_attempt_is_time_data _ _ _ _ _ Hp1).
    rewrite (time_attempt_is_time_data _ _ _ _ _ Hp2).
    now rewrite Heq.
Qed.

Lemma extraction_is_deterministic_witness :
  attempts artist_table_insert
    (trace (process_song_file read_json (empty_cursor []) "song.json"))
  = [(0, [Str "A1"; Str "Nirvana"; Null; Null; Null])]
  /\ attempts artist_table_insert
       (trace (process_song_file read_json (loaded_cursor [true]) "song.json"))
     = [(0, [Str "A1"; Str "Nirvana"; Null; Null; Null])]
  /\ time_data (Timestamp 1541121934796)
     = [Timestamp 1541121934796; Int 1; Int 5; Int 44; Int 11; Int 2018; Int 4].
Proof.
  destruct extraction_is_deterministic as [Hsong Htime].
  destruct (Hsong read_json "song.json" (empty_cursor [])
              read_json "song.json" (loaded_cursor [true]) song_frame
              _ _ eq_refl eq_refl eq_refl eq_refl) as [H1 [H2 _]].
  split; [exact H1|]. split; [exact H2|].
  symmetry.
  apply (Htime read_json "log.json" (loaded_cursor [])
               read_json "log.json" (loaded_cursor [true]) 0 _ 0 _).
  - simpl. left. reflexivity.
  - simpl. left. reflexivity.
  - reflexivity.
Defined.

End SongFileFacts.

Module CreateTablesFacts.
Import CreateTables.

Ltac answers server :=
  do 6 (try (destruct server as [|[|] server])); cbn.

Lemma count_app (p : action -> bool) (tr1 tr2 : list action) :
  count p (tr1 ++ tr2) = (count p tr1 + count p tr2)%nat.
Proof. unfold count. now rewrite filter_app, length_app. Qed.

Lemma ran_app (tr1 tr2 : list action) : ran (tr1 ++ tr2) = ran tr1 ++ ran tr2.
Proof.
  induction tr1 as [|a tr1 IH]; [reflexivity|].
  destruct a; cbn; now rewrite ?IH.
Qed.

(** X1 -- [create_database] hands back the sparkifydb cursor and
    connection exactly when none of its six guarded calls raises; it then
    has dropped and created the database, in that order, on studentdb,
    closed that connection and logged nothing. *)
Theorem create_database_outcome (server : list bool) :
  handle (create_database server)
  = (if existsb (fun raised => raised) (firstn 6 server)
     then None else Some "sparkifydb")
  /\ (existsb (fun raised => raised) (firstn 6 server) = false ->
      actions (create_database server)
      = [Connect "studentdb" true; SetAutocommit; OpenCursor true;
         Run drop_database true; Run create_database_sql true;
         CloseConnection; Connect "sparkifydb" true; OpenCursor true]
      /\ remaining (create_database server) = skipn 6 server).
Proof.
  answers server; split; try reflexivity; intros H; try discriminate H;
    split; reflexivity.
Qed.

Lemma create_database_outcome_witness :
  handle (create_database [false; false; false; true]) = None
  /\ actions (create_database [false; false; false; false; false; false; true])
     = [Connect "studentdb" true; SetAutocommit; OpenCursor true;
        Run drop_database true; Run create_database_sql true;
        CloseConnection; Connect "sparkifydb" true; OpenCursor true]
  /\ remaining (create_database [false; false; false; false; false; false; true])
     = [true].
Proof.
  split.
  - exact (proj1 (create_database_outcome [false; false; false; true])).
  - exact (proj2 (create_database_outcome
                    [false; false; false; false; false; false; true]) eq_refl).
Defined.

(** X2 -- when [create_database] gives up it logs exactly one warning, as
    its last action.  Unless the call that failed was a connect, it
    returns without calling [close] on the connection it has opened: the
    successful connects are one more than the closes. *)
Theorem create_database_gives_up (server : list bool) :
  handle (create_database server) = None ->
  count is_log (actions (create_database server)) = 1%nat
  /\ (exists done msg,
         actions (create_database server) = done ++ [LogWarning msg])
  /\ (count is_refused (actions (create_database server)) = 1%nat ->
      count is_open (actions (create_database server))
      = count is_close (actions (create_database server)))
  /\ (count is_refused (actions (create_database server)) = 0%nat ->
      count is_open (actions (create_database server))
      = S (count is_close (actions (create_database server)))).
Proof.
  answers server; intros H; try discriminate H;
    (split; [reflexivity|]);
    (split; [eexists; eexists; cbn;
             match goal with
             | |- ?l = _ => change l with (removelast l ++ [last l SetAutocommit])
             end; reflexivity|]);
    split; intros Hc; try discriminate Hc; reflexivity.
Qed.

Lemma create_database_gives_up_witness :
  count is_open (actions (create_database [false; false; true])) = 1%nat
  /\ count is_close (actions (create_database [false; false; true])) = 0%nat
  /\ count is_log (actions (create_database [false; false; true])) = 1%nat.
Proof.
  destruct (create_database_gives_up [false; false; true] eq_refl)
    as [Hlog [_ [_ Hleak]]].
  split; [exact (Hleak eq_refl)|]. split; [reflexivity|exact Hlog].
Defined.

Lemma execute_each_trace could_not queries server :
  ran (fst (execute_each could_not queries server)) = queries
  /\ count is_commit (fst (execute_each could_not queries server))
     = count is_run_ok (fst (execute_each could_not queries server))
  /\ count is_log (fst (execute_each could_not queries server))
     = count is_run_failed (fst (execute_each could_not queries server))
  /\ count is_run_failed (fst (execute_each could_not queries server))
     = List.length (filter (fun raised => raised)
                           (firstn (List.length queries) server))
  /\ count is_close (fst (execute_each could_not queries server)) = 0%nat
  /\ count is_open (fst (execute_each could_not queries server)) = 0%nat
  /\ snd (execute_each could_not queries server)
     = skipn (List.length queries) server.
Proof.
  revert server. induction queries as [|q queries IH]; intros server.
  - cbn. repeat split; reflexivity.
  - cbn [execute_each]. specialize (IH (tl server)).
    destruct (execute_each could_not queries (tl server)) as [tr server'].
    cbn [fst snd] in IH.
    destruct IH as [IH1 [IH2 [IH3 [IH4 [IH5 [IH6 IH7]]]]]].
    unfold raises. destruct server as [|[|] server]; cbn [hd tl fst snd] in *;
      unfold count in *; cbn; rewrite ?IH1, ?IH2, ?IH3, ?IH4, ?IH5, ?IH6, ?IH7;
      rewrite ?firstn_nil, ?skipn_nil; repeat split; reflexivity.
Qed.

(** X3 -- [drop_tables] and [create_tables] execute every query of their
    list once, in list order, whatever fails; each success is committed
    and each failure logged; there are as many failures as errors among
    the answers of the server to these calls. *)
Theorem table_queries_all_attempted drop_table_queries create_table_queries server :
  let dropped := fst (drop_tables drop_table_queries server) in
  let server1 := snd (drop_tables drop_table_queries server) in
  let created := fst (create_tables create_table_queries server1) in
  ran dropped = drop_table_queries
  /\ ran created = create_table_queries
  /\ count is_commit dropped = count is_run_ok dropped
  /\ count is_commit created = count is_run_ok created
  /\ count is_log dropped = count is_run_failed dropped
  /\ count is_log created = count is_run_failed created
  /\ count is_run_failed dropped
     = List.length (filter (fun raised => raised)
                           (firstn (List.length drop_table_queries) server))
  /\ count is_run_failed created
     = List.length (filter (fun raised => raised)
                           (firstn (List.length create_table_queries) server1))
  /\ server1 = skipn (List.length drop_table_queries) server.
Proof.
  intros dropped server1 created.
  pose proof (execute_each_trace "ERROR: Could not drop table with query: "
                drop_table_queries server) as Hd.
  pose proof (execute_each_trace "ERROR: Could not create table with query: "
                create_table_queries server1) as Hc.
  unfold dropped, created, server1, drop_tables, create_tables in *.
  intuition.
Qed.

Lemma create_database_success (server : list bool) :
  handle (create_database server) <> None ->
  handle (create_database server) = Some "sparkifydb"
  /\ actions (create_database server)
     = [Connect "studentdb" true; SetAutocommit; OpenCursor true;
        Run drop_database true; Run create_database_sql true;
        CloseConnection; Connect "sparkifydb" true; OpenCursor true]
  /\ remaining (create_database server) = skipn 6 server.
Proof.
  answers server; intros H; try (exfalso; apply H; reflexivity);
    repeat split; reflexivity.
Qed.

(** X4 -- [main] of create_tables.py.  When the database cannot be
    created, no table query is executed.  Otherwise every drop query is
    executed before any create query, each list in order and whatever
    fails, and the run ends by closing the connection, so that no
    connection is left open. *)
Theorem create_tables_main drop_table_queries create_table_queries server :
  (handle (create_database server) = None ->
   main drop_table_queries create_table_queries server
   = actions (create_database server)
   /\ forall q, In q (ran (main drop_table_queries create_table_queries server)) ->
                q = drop_database \/ q = create_database_sql)
  /\ (handle (create_database server) <> None ->
      ran (main drop_table_queries create_table_queries server)
      = [drop_database; create_database_sql]
        ++ drop_table_queries ++ create_table_queries
      /\ (exists done,
             main drop_table_queries create_table_queries server
             = done ++ [CloseConnection])
      /\ count is_open (main drop_table_queries create_table_queries server)
         = count is_close (main drop_table_queries create_table_queries server)).
Proof.
  split.
  - intros H. unfold main. rewrite H. split; [reflexivity|].
    revert H. answers server; intros H; try discriminate H;
      intros q Hq; cbn in Hq; intuition.
  - intros H. unfold main.
    destruct (create_database_success server H) as [Hh [Hact Hrem]].
    rewrite Hh, Hact, Hrem.
    pose proof (execute_each_trace "ERROR: Could not drop table with query: "
                  drop_table_queries (skipn 6 server)) as Hd.
    unfold drop_tables, create_tables.
    destruct (execute_each "ERROR: Could not drop table with query: "
                drop_table_queries (skipn 6 server)) as [dropped server1].
    pose proof (execute_each_trace "ERROR: Could not create table with query: "
                  create_table_queries server1) as Hc.
    destruct (execute_each "ERROR: Could not create table with query: "
                create_table_queries server1) as [created server2].
    cbn [fst snd] in Hd, Hc.
    destruct Hd as [Hd1 [_ [_ [_ [Hd5 [Hd6 _]]]]]].
    destruct Hc as [Hc1 [_ [_ [_ [Hc5 [Hc6 _]]]]]].
    split; [|split].
    + rewrite !ran_app, Hd1, Hc1. cbn. now rewrite app_nil_r.
    + eexists. rewrite !app_assoc. reflexivity.
    + rewrite !count_app, Hd5, Hd6, Hc5, Hc6. reflexivity.
Qed.

Lemma create_tables_main_witness :
  ran (main ["DROP TABLE IF EXISTS songplays"; "DROP TABLE IF EXISTS users"]
            ["CREATE TABLE songplays ()"]
            [false; false; false; false; false; false; true])
  = [drop_database; create_database_sql; "DROP TABLE IF EXISTS songplays";
     "DROP TABLE IF EXISTS users"; "CREATE TABLE songplays ()"]
  /\ main ["DROP TABLE IF EXISTS songplays"] ["CREATE TABLE songplays ()"] [true]
     = [Connect "studentdb" false;
        LogWarning "ERROR: Could not make connection to studentdb database."].
Proof.
  split.
  - apply (proj2 (create_tables_main
                    ["DROP TABLE IF EXISTS songplays"; "DROP TABLE IF EXISTS users"]
                    ["CREATE TABLE songplays ()"]
                    [false; false; false; false; false; false; true])).
    discriminate.
  - apply (proj1 (create_tables_main ["DROP TABLE IF EXISTS songplays"]
                    ["CREATE TABLE songplays ()"] [true])).
    reflexivity.
Defined.

End CreateTablesFacts.

Module SongFileMoreFacts.
Import Pandas Psycopg2 Etl Observations EtlFacts Samples MoreSamples.

(** X5 -- [process_song_file] always returns, and a file is either loaded
    or reported once: either the artist insert and then the song insert
    both succeeded and nothing was logged, or exactly one warning was
    logged, as the last thing the call did, and no song was inserted. *)
Theorem song_file_loaded_or_reported read_json cur filepath :
  result (process_song_file read_json cur filepath) = Returned
  /\ ((warnings (trace (process_song_file read_json cur filepath)) = []
       /\ exists i a s,
            trace (process_song_file read_json cur filepath)
            = [Executed i artist_table_insert a true;
               Executed i song_table_insert s true])
      \/ (exists done msg,
             trace (process_song_file read_json cur filepath)
             = done ++ [Warning msg]
             /\ warnings done = []
             /\ succeeded song_table_insert done = [])).
Proof.
  unfold process_song_file.
  destruct (read_json filepath) as [df|].
  2:{ split; [reflexivity|right]. exists [], ("Error: Could not read JSON content of " ++ filepath)%string. auto. }
  destruct (artist_data df) as [a|].
  2:{ split; [reflexivity|right]. eexists [], _. cbn. auto. }
  destruct (execute artist_table_insert a cur) as [cur1 ok].
  destruct ok; cbn [negb].
  2:{ split; [reflexivity|right].
      eexists [Executed _ artist_table_insert a false], _. cbn. auto. }
  destruct (song_data df) as [s|].
  2:{ split; [reflexivity|right].
      eexists [Executed _ artist_table_insert a true], _. cbn. auto. }
  destruct (execute song_table_insert s cur1) as [cur2 ok2].
  destruct ok2.
  - split; [reflexivity|left]. cbn. eauto.
  - split; [reflexivity|right].
    eexists [Executed _ artist_table_insert a true;
             Executed _ song_table_insert s false], _. cbn. auto.
Qed.



End SongFileMoreFacts.

Module ProcessDataFacts.
Import Pandas Psycopg2 Etl Observations EtlFacts Samples MoreSamples.

Lemma commits_app (tr1 tr2 : list event) :
  commits (tr1 ++ tr2) = (commits tr1 + commits tr2)%nat.
Proof.
  induction tr1 as [|e tr1 IH]; [reflexivity|].
  destruct e; cbn; now rewrite IH.
Qed.

Lemma attempts_nil_iff (q : query) (tr : list event) :
  attempts q tr = [] <-> forall i params ok, ~ In (Executed i q params ok) tr.
Proof.
  split.
  - intros H i params ok Hin.
    assert (Hin' : In (i, params) (attempts q tr)) by (apply In_attempts; eauto).
    rewrite H in Hin'. destruct Hin'.
  - intros H. destruct (attempts q tr) as [|[i params] l] eqn:E; [reflexivity|].
    assert (Hin : In (i, params) (attempts q tr)) by (rewrite E; now left).
    apply In_attempts in Hin. destruct Hin as [ok Hin]. now apply H in Hin.
Qed.

Lemma insert_time_records_commits cur records :
  commits (snd (insert_time_records cur records)) = 0%nat.
Proof.
  revert cur. induction records as [|[i rec] records IH]; intros cur; cbn;
    [reflexivity|].
  destruct (execute time_table_insert rec cur) as [cur1 ok].
  specialize (IH cur1). destruct (insert_time_records cur1 records) as [cur2 tr].
  destruct ok; cbn in *; exact IH.
Qed.

Lemma insert_user_records_commits cur cols records :
  commits (snd (insert_user_records cur cols records)) = 0%nat.
Proof.
  revert cur. induction records as [|[i r] records IH]; intros cur; cbn;
    [reflexivity|].
  destruct (execute user_table_insert (tolist cols r) cur) as [cur1 ok].
  specialize (IH cur1).
  destruct (insert_user_records cur1 cols records) as [cur2 tr].
  destruct ok; cbn in *; exact IH.
Qed.

Lemma insert_songplay_records_commits cur cols records :
  commits (trace (insert_songplay_records cur cols records)) = 0%nat.
Proof.
  revert cur. induction records as [|[i r] records IH]; intros cur; cbn;
    [reflexivity|].
  destruct (execute song_select _ cur) as [cur1 found]. destruct found.
  - destruct (fetchone cur1) as [res cur2].
    destruct (resolved_ids res) as [songid artistid].
    destruct (songplay_data cols r songid artistid) as [e|data];
      [reflexivity|].
    destruct (execute songplay_table_insert data cur2) as [cur3 ok].
    destruct ok; cbn; apply IH.
  - cbn. apply IH.
Qed.

Lemma process_song_file_commits read_json cur filepath :
  commits (trace (process_song_file read_json cur filepath)) = 0%nat.
Proof.
  unfold process_song_file.
  destruct (read_json filepath) as [df|]; [|reflexivity].
  destruct (artist_data df) as [a|]; [|reflexivity].
  destruct (execute artist_table_insert a cur) as [cur1 ok].
  destruct ok; [|reflexivity]. cbn [negb].
  destruct (song_data df) as [s|]; [|reflexivity].
  destruct (execute song_table_insert s cur1) as [cur2 ok2].
  now destruct ok2.
Qed.

Lemma process_log_file_commits read_json cur filepath :
  commits (trace (process_log_file read_json cur filepath)) = 0%nat.
Proof.
  unfold process_log_file.
  destruct (read_json filepath) as [df|]; [|reflexivity].
  destruct (negb (has_column (columns df) "ts")); [reflexivity|].
  destruct (convert_column "ts" (rows df)) as [e|conv]; [reflexivity|].
  cbn [columns].
  destruct (negb (has_column (columns df) "page")); [reflexivity|].
  pose proof (insert_time_records_commits cur
                (time_df (mkDataFrame (columns df) conv))) as H1.
  destruct (insert_time_records cur (time_df (mkDataFrame (columns df) conv)))
    as [cur1 tr1]. cbn [snd] in H1.
  destruct (getitem_columns (mkDataFrame (columns df) conv) user_columns)
    as [user_df|].
  2:{ cbn [trace]. now rewrite commits_app, H1. }
  pose proof (insert_user_records_commits cur1
                (columns (nonempty_users user_df))
                (rows (nonempty_users user_df))) as H2.
  destruct (insert_user_records cur1 (columns (nonempty_users user_df))
              (rows (nonempty_users user_df))) as [cur2 tr2]. cbn [snd] in H2.
  destruct (dropna (mkDataFrame (columns df) conv) ["artist"; "song"; "length"])
    as [played|]; cbn [trace]; rewrite !commits_app, H1, H2;
    [apply insert_songplay_records_commits|reflexivity].
Qed.

Lemma process_song_file_returns read_json cur filepath :
  result (process_song_file read_json cur filepath) = Returned.
Proof.
  unfold process_song_file.
  destruct (read_json filepath) as [df|]; [|reflexivity].
  destruct (artist_data df) as [a|]; [|reflexivity].
  destruct (execute artist_table_insert a cur) as [cur1 ok].
  destruct ok; [|reflexivity]. cbn [negb].
  destruct (song_data df) as [s|]; [|reflexivity].
  now destruct (execute song_table_insert s cur1) as [cur2 ok2].
Qed.

Lemma process_song_file_kinds read_json cur filepath q :
  q <> artist_table_insert -> q <> song_table_insert ->
  attempts q (trace (process_song_file read_json cur filepath)) = [].
Proof.
  intros Ha Hs. unfold process_song_file.
  destruct (read_json filepath) as [df|]; [|reflexivity].
  destruct (artist_data df) as [a|]; [|reflexivity].
  destruct (execute artist_table_insert a cur) as [cur1 ok].
  assert (E1 : query_eqb q artist_table_insert = false).
  { destruct q; try reflexivity; contradiction. }
  assert (E2 : query_eqb q song_table_insert = false).
  { destruct q; try reflexivity; contradiction. }
  destruct ok; cbn [negb].
  - destruct (song_data df) as [s|].
    + destruct (execute song_table_insert s cur1) as [cur2 ok2].
      cbn [trace attempts]. rewrite E1, E2. now destruct ok2.
    + cbn [trace attempts]. now rewrite E1.
  - cbn [trace attempts]. now rewrite E1.
Qed.

Lemma process_log_file_kinds read_json cur filepath q :
  q = artist_table_insert \/ q = song_table_insert ->
  attempts q (trace (process_log_file read_json cur filepath)) = [].
Proof.
  intros Hq. apply attempts_nil_iff. intros i params ok Hin.
  destruct (read_json filepath) as [df|] eqn:Hread.
  - destruct (process_log_file_statements _ _ _ _ Hread _ _ _ _ Hin)
      as [line [_ Hissued]].
    destruct Hq; subst q; exact Hissued.
  - unfold process_log_file in Hin. rewrite Hread in Hin.
    destruct Hin as [Hin|[]]. discriminate.
Qed.

Lemma process_data_attempts_nil cur all_files func q :
  (forall cur' f, attempts q (trace (func cur' f)) = []) ->
  attempts q (trace (process_data cur all_files func)) = [].
Proof.
  intros Hfunc. revert cur.
  induction all_files as [|f files IH]; intros cur; cbn; [reflexivity|].
  destruct (result (func cur f)); [|apply Hfunc].
  cbn [trace]. rewrite attempts_app, Hfunc. cbn. apply IH.
Qed.

(** X7 -- [process_data] over a listing in two parts: when the first part
    is processed without an uncaught exception, processing the whole
    listing is processing the first part and then the second from the
    store the first has left. *)
Theorem process_data_app cur files1 files2 func :
  result (process_data cur files1 func) = Returned ->
  process_data cur (files1 ++ files2) func
  = mkRun (final (process_data (final (process_data cur files1 func))
                               files2 func))
          (trace (process_data cur files1 func)
           ++ trace (process_data (final (process_data cur files1 func))
                                  files2 func))
          (result (process_data (final (process_data cur files1 func))
                                files2 func)).
Proof.
  revert cur. induction files1 as [|f files1 IH]; intros cur H.
  - cbn. now destruct (process_data cur files2 func).
  - cbn in *. destruct (result (func cur f)) eqn:E.
    + cbn [result final trace] in *. rewrite (IH _ H). cbn.
      now rewrite <- app_assoc.
    + rewrite E in H. discriminate.
Qed.

Lemma process_data_app_witness :
  trace (process_data (loaded_cursor []) (["home.json"] ++ ["log.json"])
           (process_log_file read_more))
  = trace (process_data (loaded_cursor []) ["home.json"]
             (process_log_file read_more))
    ++ trace (process_data
                (final (process_data (loaded_cursor []) ["home.json"]
                          (process_log_file read_more)))
                ["log.json"] (process_log_file read_more)).
Proof.
  rewrite (process_data_app (loaded_cursor []) ["home.json"] ["log.json"]
             (process_log_file read_more) eq_refl).
  reflexivity.
Defined.

(** X8 -- an uncaught exception ends the batch: the files listed after
    the file that raised are never handed to [func], and no commit
    follows that file's statements. *)
Theorem process_data_stops_at_exception cur before datafile after func e :
  result (process_data cur before func) = Returned ->
  result (func (final (process_data cur before func)) datafile) = Raised e ->
  process_data cur (before ++ datafile :: after) func
  = mkRun (final (func (final (process_data cur before func)) datafile))
          (trace (process_data cur before func)
           ++ trace (func (final (process_data cur before func)) datafile))
          (Raised e).
Proof.
  revert cur. induction before as [|f before IH]; intros cur Hret Hraise.
  - cbn in *. rewrite Hraise.
    destruct (func cur datafile) as [c tr r]. cbn in *. now subst.
  - cbn in *. destruct (result (func cur f)) eqn:E.
    + cbn [result final trace] in *. rewrite (IH _ Hret Hraise). cbn.
      now rewrite <- app_assoc.
    + rewrite E in Hret. discriminate.
Qed.

Lemma process_data_stops_at_exception_witness :
  process_data (loaded_cursor []) (["home.json"] ++ "no_ts.json" :: ["log.json"])
    (process_log_file read_more)
  = mkRun (final (process_log_file read_more (loaded_cursor []) "home.json"))
          (trace (process_log_file read_more (loaded_cursor []) "home.json")
           ++ [Commit])
          (Raised (KeyError "ts")).
Proof.
  rewrite (process_data_stops_at_exception (loaded_cursor []) ["home.json"]
             "no_ts.json" ["log.json"] (process_log_file read_more)
             (KeyError "ts") eq_refl eq_refl).
  reflexivity.
Defined.

Lemma song_batch_commits_every_file_aux read_json cur all_files :
  result (process_data cur all_files (process_song_file read_json)) = Returned
  /\ commits (trace (process_data cur all_files (process_song_file read_json)))
     = List.length all_files
  /\ forall q, q <> artist_table_insert -> q <> song_table_insert ->
       attempts q (trace (process_data cur all_files
                            (process_song_file read_json))) = [].
Proof.
  split; [|split].
  - revert cur. induction all_files as [|f files IH]; intros cur; cbn;
      [reflexivity|].
    rewrite process_song_file_returns. cbn. apply IH.
  - revert cur. induction all_files as [|f files IH]; intros cur; cbn;
      [reflexivity|].
    rewrite process_song_file_returns. cbn [trace].
    rewrite commits_app, process_song_file_commits. cbn. now rewrite IH.
  - intros q Ha Hs. apply process_data_attempts_nil.
    intros cur' f. now apply process_song_file_kinds.
Qed.

(** X9 -- a batch of song files is always processed to the end: the call
    returns, commits once per listed file, readable or not, and executes
    nothing but artist and song inserts; the files are handled in listing
    order, each from the store its predecessors have left. *)
Theorem song_batch_commits_every_file read_json cur all_files :
  result (process_data cur all_files (process_song_file read_json)) = Returned
  /\ commits (trace (process_data cur all_files (process_song_file read_json)))
     = List.length all_files
  /\ (forall q, q <> artist_table_insert -> q <> song_table_insert ->
        attempts q (trace (process_data cur all_files
                             (process_song_file read_json))) = [])
  /\ forall datafile after,
       all_files = datafile :: after ->
       trace (process_data cur all_files (process_song_file read_json))
       = trace (process_song_file read_json cur datafile)
         ++ Commit
         :: trace (process_data
                     (final (process_song_file read_json cur datafile))
                     after (process_song_file read_json)).
Proof.
  destruct (song_batch_commits_every_file_aux read_json cur all_files)
    as [Hret [Hcommits Hkinds]].
  split; [exact Hret|]. split; [exact Hcommits|]. split; [exact Hkinds|].
  intros datafile after Heq. subst all_files. cbn.
  now rewrite process_song_file_returns.
Qed.

(** X10 -- a batch of log files commits once per file that was processed
    without an uncaught exception: as many commits as files when the call
    returns, fewer when it raises; and it never executes an artist or a
    song insert. *)
Theorem log_batch_commits read_json cur all_files :
  (result (process_data cur all_files (process_log_file read_json)) = Returned ->
   commits (trace (process_data cur all_files (process_log_file read_json)))
   = List.length all_files)
  /\ (result (process_data cur all_files (process_log_file read_json))
      <> Returned ->
      (commits (trace (process_data cur all_files (process_log_file read_json)))
       < List.length all_files)%nat)
  /\ attempts artist_table_insert
       (trace (process_data cur all_files (process_log_file read_json))) = []
  /\ attempts song_table_insert
       (trace (process_data cur all_files (process_log_file read_json))) = [].
Proof.
  assert (H : forall cur,
             (result (process_data cur all_files (process_log_file read_json))
              = Returned ->
              commits (trace (process_data cur all_files
                                (process_log_file read_json)))
              = List.length all_files)
             /\ (result (process_data cur all_files (process_log_file read_json))
                 <> Returned ->
                 (commits (trace (process_data cur all_files
                                    (process_log_file read_json)))
                  < List.length all_files)%nat)).
  { induction all_files as [|f files IH]; intros cur0; cbn.
    - split; [reflexivity|intros H; now destruct H].
    - destruct (result (process_log_file read_json cur0 f)) eqn:E.
      + cbn [result trace]. rewrite commits_app, process_log_file_commits.
        cbn. destruct (IH (final (process_log_file read_json cur0 f)))
          as [IH1 IH2].
        split; intros H; [now rewrite IH1|]. apply IH2 in H. lia.
      + rewrite E, process_log_file_commits.
        split; [discriminate|intros _; lia]. }
  destruct (H cur) as [H1 H2].
  split; [exact H1|]. split; [exact H2|].
  split; apply process_data_attempts_nil; intros cur' f;
    apply process_log_file_kinds; auto.
Qed.

Lemma log_batch_commits_witness :
  commits (trace (process_data (loaded_cursor []) ["home.json"; "log.json"]
                    (process_log_file read_more))) = 2%nat
  /\ (commits (trace (process_data (loaded_cursor [])
                        ["home.json"; "no_ts.json"; "log.json"]
                        (process_log_file read_more))) < 3)%nat.
Proof.
  split.
  - apply (proj1 (log_batch_commits read_more (loaded_cursor [])
                    ["home.json"; "log.json"])). reflexivity.
  - apply (proj1 (proj2 (log_batch_commits read_more (loaded_cursor [])
                           ["home.json"; "no_ts.json"; "log.json"]))).
    discriminate.
Defined.

(** X11 -- [main] of etl.py: the song files are all processed, and
    committed, before the first log file is opened; the artist and song
    inserts all belong to the first phase and every other statement to
    the second, whose outcome is the outcome of the run. *)
Theorem etl_main_phases read_json cur song_files log_files :
  let songs_run := process_data cur song_files (process_song_file read_json) in
  let logs_run :=
    process_data (final songs_run) log_files (process_log_file read_json) in
  main read_json cur song_files log_files
  = mkRun (final logs_run) (trace songs_run ++ trace logs_run) (result logs_run)
  /\ commits (trace songs_run) = List.length song_files
  /\ (forall q, q <> artist_table_insert -> q <> song_table_insert ->
        attempts q (trace songs_run) = [])
  /\ attempts artist_table_insert (trace logs_run) = []
  /\ attempts song_table_insert (trace logs_run) = [].
Proof.
  intros songs_run logs_run.
  destruct (song_batch_commits_every_file_aux read_json cur song_files)
    as [Hret [Hcommits Hkinds]].
  split; [|split; [exact Hcommits|split; [exact Hkinds|]]].
  - unfold main. fold songs_run. unfold songs_run at 1. rewrite Hret.
    reflexivity.
  - split; apply process_data_attempts_nil; intros cur' f;
      apply process_log_file_kinds; auto.
Qed.

End ProcessDataFacts.

Module LogFileMoreFacts.
Import Pandas Psycopg2 Etl Observations EtlFacts LogFileFacts ProcessDataFacts.
Import Samples MoreSamples.

Lemma convert_column_raises c rs i line e :
  In (i, line) rs -> to_datetime_ms (get line c) = inl e ->
  exists e', convert_column c rs = inl e'.
Proof.
  induction rs as [|[j r] rs IH]; [intros []|].
  intros [H|H] He; cbn.
  - inversion H; subst. rewrite He. eauto.
  - destruct (to_datetime_ms (get r c)); [eauto|].
    destruct (IH H He) as [e' He']. rewrite He'. eauto.
Qed.

(** X12 -- a log file is refused as a whole, before anything is executed,
    when it has no ts column, when the ts of any one of its lines is a
    64-bit integer beyond the range of a nanosecond timestamp (however
    many lines are sound), or when it has no page column: the call
    raises, with the cursor as it was. *)
Theorem log_file_refused read_json cur filepath df :
  read_json filepath = Some df ->
  has_column (columns df) "ts" = false
  \/ (exists i line ms, In (i, line) (rows df)
                        /\ get line "ts" = Int ms
                        /\ int64_ms ms
                        /\ (ms < - max_timestamp_ms \/ max_timestamp_ms < ms))
  \/ has_column (columns df) "page" = false ->
  exists e,
    process_log_file read_json cur filepath = mkRun cur [] (Raised e).
Proof.
  intros Hread H. unfold process_log_file. rewrite Hread.
  destruct (has_column (columns df) "ts") eqn:Hts; cbn [negb]; [|eauto].
  destruct H as [H|[H|H]]; [discriminate| |].
  - destruct H as [i [line [ms [Hin [Hms [_ Hrange]]]]]].
    assert (He : to_datetime_ms (get line "ts") = inl OutOfBoundsDatetime).
    { rewrite Hms. cbn [to_datetime_ms].
      destruct ((- max_timestamp_ms <=? ms) && (ms <=? max_timestamp_ms))%bool
        eqn:E; [|reflexivity].
      apply andb_true_iff in E. destruct E as [E1 E2].
      apply Z.leb_le in E1, E2. lia. }
    destruct (convert_column_raises "ts" _ _ _ _ Hin He) as [e' He'].
    rewrite He'. eauto.
  - destruct (convert_column "ts" (rows df)); [eauto|].
    cbn [columns]. rewrite H. cbn. eauto.
Qed.

Lemma log_file_refused_witness :
  exists e,
    process_log_file read_more (loaded_cursor []) "bad_ts.json"
    = mkRun (loaded_cursor []) [] (Raised e).
Proof.
  apply (log_file_refused read_more (loaded_cursor []) "bad_ts.json"
           bad_ts_frame eq_refl).
  right. left. exists 1, bad_ts_line, 10000000000000.
  split; [simpl; auto|]. split; [reflexivity|].
  split; [unfold int64_ms; lia|]. right. reflexivity.
Defined.

(** X13 -- once a log file is past these checks, exactly one time insert
    is attempted per line whose page is NextSong, in line order, with the
    record derived from the line's converted ts; this holds whatever
    inserts fail and whatever the rest of the run does, and also for
    lines that name no artist, song or length. *)
Theorem time_records_in_line_order read_json cur filepath df conv :
  read_json filepath = Some df ->
  has_column (columns df) "ts" = true ->
  convert_column "ts" (rows df) = inr conv ->
  has_column (columns df) "page" = true ->
  attempts time_table_insert (trace (process_log_file read_json cur filepath))
  = map (fun ir => (fst ir, time_data (converted_cell (get (snd ir) "ts"))))
        (filter (fun ir => eq_str (get (snd ir) "page") page) (rows df)).
Proof.
  intros Hread Hts Hconv Hpage.
  unfold process_log_file. rewrite Hread, Hts, Hconv. cbn [negb columns].
  rewrite Hpage. cbn [negb].
  pose proof (insert_time_records_attempts cur
                (time_df (mkDataFrame (columns df) conv)) time_table_insert)
    as Htime.
  destruct (insert_time_records cur (time_df (mkDataFrame (columns df) conv)))
    as [cur1 tr1]. cbn [snd query_eqb] in Htime.
  assert (Hrecords : time_df (mkDataFrame (columns df) conv)
                     = map (fun ir => (fst ir,
                                       time_data (converted_cell (get (snd ir) "ts"))))
                           (filter (fun ir => eq_str (get (snd ir) "page") page)
                                   (rows df))).
  { unfold time_df, t, boolean_mask. cbn [rows].
    rewrite (convert_column_map _ _ _ Hconv).
    rewrite filter_map_commute, map_map. cbn [fst snd].
    erewrite filter_ext; [apply map_ext|].
    - intros [i r]. cbn [fst snd]. now rewrite get_set_same.
    - intros [i r]. cbn [fst snd]. reflexivity. }
  destruct (getitem_columns (mkDataFrame (columns df) conv) user_columns)
    as [user_df|].
  2:{ cbn [trace]. rewrite attempts_app, Htime. cbn. now rewrite app_nil_r. }
  pose proof (insert_user_records_attempts cur1
                (columns (nonempty_users user_df))
                (rows (nonempty_users user_df)) time_table_insert) as Husers.
  destruct (insert_user_records cur1 (columns (nonempty_users user_df))
              (rows (nonempty_users user_df))) as [cur2 tr2].
  cbn [snd query_eqb] in Husers.
  destruct (dropna (mkDataFrame (columns df) conv) ["artist"; "song"; "length"])
    as [played|]; cbn [trace]; rewrite !attempts_app, Htime, Husers.
  - rewrite insert_songplay_records_attempts_other by discriminate.
    now rewrite !app_nil_r.
  - now rewrite app_nil_r.
Qed.

Lemma time_records_in_line_order_witness :
  attempts time_table_insert
    (trace (process_log_file read_more (loaded_cursor [true]) "log.json"))
  = [(0, [Timestamp 1541121934796; Int 1; Int 5; Int 44; Int 11; Int 2018;
          Int 4])].
Proof.
  exact (time_records_in_line_order read_more (loaded_cursor [true]) "log.json"
           log_frame _ eq_refl eq_refl eq_refl eq_refl).
Defined.

Lemma time_df_rows (cols : list string) (rs conv : list (Z * row)) :
  convert_column "ts" rs = inr conv ->
  time_df (mkDataFrame cols conv)
  = map (fun ir => (fst ir, time_data (converted_cell (get (snd ir) "ts"))))
        (filter (fun ir => eq_str (get (snd ir) "page") page) rs).
Proof.
  intros Hconv. unfold time_df, t, boolean_mask. cbn [rows].
  rewrite (convert_column_map _ _ _ Hconv).
  rewrite filter_map_commute, map_map. cbn [fst snd].
  erewrite filter_ext; [apply map_ext|].
  - intros [i r]. cbn [fst snd]. now rewrite get_set_same.
  - intros [i r]. cbn [fst snd]. reflexivity.
Qed.

(** X14 -- a log file that lacks one of the five user columns: its time
    records are still inserted, one per NextSong line, then one warning
    is logged and the call returns; no user insert, no lookup and no
    songplay insert is attempted, though the lines may well name users
    and songs. *)
Theorem log_file_without_user_column read_json cur filepath df conv :
  read_json filepath = Some df ->
  has_column (columns df) "ts" = true ->
  convert_column "ts" (rows df) = inr conv ->
  has_column (columns df) "page" = true ->
  forallb (has_column (columns df)) user_columns = false ->
  result (process_log_file read_json cur filepath) = Returned
  /\ (forall q, q <> time_table_insert ->
        attempts q (trace (process_log_file read_json cur filepath)) = [])
  /\ (exists done,
        trace (process_log_file read_json cur filepath)
        = done ++ [Warning "Error: Could not extract song columns from dataframe"])
  /\ attempts time_table_insert
       (trace (process_log_file read_json cur filepath))
     = map (fun ir => (fst ir, time_data (converted_cell (get (snd ir) "ts"))))
           (filter (fun ir => eq_str (get (snd ir) "page") page) (rows df)).
Proof.
  intros Hread Hts Hconv Hpage Hcols.
  unfold process_log_file. rewrite Hread, Hts, Hconv. cbn [negb columns].
  rewrite Hpage. cbn [negb].
  pose proof (fun q => insert_time_records_attempts cur
                (time_df (mkDataFrame (columns df) conv)) q) as Htime.
  destruct (insert_time_records cur (time_df (mkDataFrame (columns df) conv)))
    as [cur1 tr1]. cbn [snd] in Htime.
  unfold getitem_columns. cbn [columns]. rewrite Hcols.
  split; [reflexivity|]. split; [|split; [exists tr1; reflexivity|]].
  - intros q Hq. cbn [trace]. rewrite attempts_app, Htime.
    destruct (query_eqb q time_table_insert) eqn:E; [|reflexivity].
    apply query_eqb_eq in E. contradiction.
  - cbn [trace]. rewrite attempts_app, Htime. cbn [query_eqb attempts].
    rewrite app_nil_r. now apply time_df_rows.
Qed.

Lemma log_file_without_user_column_witness :
  result (process_log_file read_more (loaded_cursor []) "no_level.json")
  = Returned
  /\ attempts songplay_table_insert
       (trace (process_log_file read_more (loaded_cursor []) "no_level.json"))
     = []
  /\ attempts user_table_insert
       (trace (process_log_file read_more (loaded_cursor []) "no_level.json"))
     = [].
Proof.
  destruct (log_file_without_user_column read_more (loaded_cursor [])
              "no_level.json" no_level_frame _ eq_refl eq_refl eq_refl eq_refl
              eq_refl) as [Hret [Hnone _]].
  split; [exact Hret|]. split; apply Hnone; discriminate.
Defined.

Lemma succeeded_app (q : query) (tr1 tr2 : list event) :
  succeeded q (tr1 ++ tr2) = succeeded q tr1 ++ succeeded q tr2.
Proof.
  induction tr1 as [|e tr1 IH]; [reflexivity|].
  destruct e as [i q' params [|]| |]; cbn; try exact IH.
  destruct (query_eqb q q'); cbn; now rewrite IH.
Qed.

Lemma succeeded_nil (q : query) (tr : list event) :
  attempts q tr = [] -> succeeded q tr = [].
Proof.
  induction tr as [|e tr IH]; [reflexivity|].
  destruct e as [i q' params ok| |]; cbn; try exact IH.
  destruct (query_eqb q q'); [discriminate|]. now destruct ok.
Qed.

Lemma names_a_song_mask (r : row) :
  forallb (fun c => negb (isna (get r c))) ["artist"; "song"; "length"]
  = names_a_song r.
Proof.
  unfold names_a_song. cbn [forallb].
  destruct (isna (get r "artist")), (isna (get r "song")),
    (isna (get r "length")); reflexivity.
Qed.

(** With every attribute that [songplay_data] reads among the columns,
    the songplay loop runs to its end. *)
Lemma songplay_loop_complete cur cols records :
  forallb (has_column cols) songplay_attributes = true ->
  result (insert_songplay_records cur cols records) = Returned
  /\ attempts song_select (trace (insert_songplay_records cur cols records))
     = map (fun ir => (fst ir, lookup_params (snd ir))) records
  /\ map fst (attempts songplay_table_insert
                (trace (insert_songplay_records cur cols records)))
     = succeeded song_select (trace (insert_songplay_records cur cols records)).
Proof.
  intros Hcols. revert cur.
  induction records as [|[i r] records IH]; intros cur.
  - cbn. auto.
  - cbn [insert_songplay_records].
    destruct (execute song_select _ cur) as [cur1 found]. destruct found.
    + destruct (fetchone cur1) as [res cur2].
      destruct (resolved_ids res) as [songid artistid].
      rewrite songplay_data_ok by exact Hcols.
      match goal with
      | |- context [execute songplay_table_insert ?d ?c] =>
          destruct (execute songplay_table_insert d c) as [cur3 ok]
      end.
      destruct (IH cur3) as [IH1 [IH2 IH3]].
      destruct ok; cbn; rewrite IH2, IH3; auto.
    + destruct (IH cur1) as [IH1 [IH2 IH3]].
      cbn. rewrite IH2, IH3. auto.
Qed.

Lemma songplay_data_missing cols r songid artistid :
  forallb (has_column cols) songplay_attributes = false ->
  exists name, songplay_data cols r songid artistid = inl (AttributeError name).
Proof.
  unfold songplay_attributes, songplay_data, getattr. cbn [forallb].
  destruct (has_column cols "ts"); [|eauto].
  destruct (has_column cols "userId"); [|eauto].
  destruct (has_column cols "level"); [|eauto].
  destruct (has_column cols "sessionId"); [|eauto].
  destruct (has_column cols "location"); [|eauto].
  destruct (has_column cols "userAgent"); [|eauto].
  discriminate.
Qed.

(** Without one of them, it stops at the first lookup that succeeds. *)
Lemma songplay_loop_stops cur cols records :
  forallb (has_column cols) songplay_attributes = false ->
  attempts songplay_table_insert
    (trace (insert_songplay_records cur cols records)) = []
  /\ ((result (insert_songplay_records cur cols records) = Returned
       /\ succeeded song_select
            (trace (insert_songplay_records cur cols records)) = [])
      \/ exists name i,
           result (insert_songplay_records cur cols records)
           = Raised (AttributeError name)
           /\ succeeded song_select
                (trace (insert_songplay_records cur cols records)) = [i]).
Proof.
  intros Hcols. revert cur.
  induction records as [|[i r] records IH]; intros cur.
  - cbn. auto.
  - cbn [insert_songplay_records].
    destruct (execute song_select _ cur) as [cur1 found]. destruct found.
    + destruct (fetchone cur1) as [res cur2].
      destruct (resolved_ids res) as [songid artistid].
      destruct (songplay_data_missing cols r songid artistid Hcols)
        as [name Hname].
      rewrite Hname. cbn. split; [reflexivity|right]. eauto.
    + destruct (IH cur1) as [IH1 IH2]. cbn. split; [exact IH1|exact IH2].
Qed.

(** X15 -- a log file with all the columns the run reads: the call
    returns; exactly one lookup is attempted per line whose artist, song
    and length are all present, in line order and whatever its page, with
    (song, artist, length) as parameters; and a songplay insert is
    attempted for exactly the lines whose lookup succeeded. *)
Theorem songplay_lookups_in_line_order read_json cur filepath df conv :
  read_json filepath = Some df ->
  has_column (columns df) "ts" = true ->
  convert_column "ts" (rows df) = inr conv ->
  has_column (columns df) "page" = true ->
  forallb (has_column (columns df)) user_columns = true ->
  forallb (has_column (columns df)) ["artist"; "song"; "length"] = true ->
  forallb (has_column (columns df)) songplay_attributes = true ->
  result (process_log_file read_json cur filepath) = Returned
  /\ attempts song_select (trace (process_log_file read_json cur filepath))
     = map (fun ir => (fst ir, lookup_params (snd ir)))
           (filter (fun ir => names_a_song (snd ir)) (rows df))
  /\ map fst (attempts songplay_table_insert
                (trace (process_log_file read_json cur filepath)))
     = succeeded song_select (trace (process_log_file read_json cur filepath)).
Proof.
  intros Hread Hts Hconv Hpage Hcols Hsong Hattrs.
  unfold process_log_file. rewrite Hread, Hts, Hconv. cbn [negb columns].
  rewrite Hpage. cbn [negb].
  pose proof (fun q => insert_time_records_attempts cur
                (time_df (mkDataFrame (columns df) conv)) q) as Htime.
  destruct (insert_time_records cur (time_df (mkDataFrame (columns df) conv)))
    as [cur1 tr1]. cbn [snd] in Htime.
  unfold getitem_columns. cbn [columns]. rewrite Hcols.
  match goal with
  | |- context [insert_user_records cur1 ?c ?r] =>
      pose proof (fun q => insert_user_records_attempts cur1 c r q) as Husers;
      destruct (insert_user_records cur1 c r) as [cur2 tr2]
  end.
  cbn [snd] in Husers.
  unfold dropna. cbn [columns]. rewrite Hsong.
  unfold boolean_mask. cbn [columns rows].
  match goal with
  | |- context [insert_songplay_records cur2 ?c ?r] =>
      destruct (songplay_loop_complete cur2 c r Hattrs) as [H1 [H2 H3]]
  end.
  cbn [result trace]. split; [exact H1|].
  rewrite !attempts_app, !succeeded_app.
  rewrite (succeeded_nil song_select tr1) by (rewrite Htime; reflexivity).
  rewrite (succeeded_nil song_select tr2) by (rewrite Husers; reflexivity).
  rewrite !Htime, !Husers. cbn [query_eqb app]. rewrite H2, H3.
  split; [|reflexivity].
  rewrite (convert_column_map _ _ _ Hconv).
  rewrite filter_map_commute, map_map. cbn [fst snd].
  erewrite filter_ext; [apply map_ext|].
  - intros [i r]. reflexivity.
  - intros [i r]. cbn [fst snd]. rewrite names_a_song_mask. reflexivity.
Qed.

Lemma songplay_lookups_in_line_order_witness :
  attempts song_select
    (trace (process_log_file read_more (loaded_cursor [false; false; true])
              "log.json"))
  = [(0, [Str "X"; Str "Nirvana"; Float (200 # 1)]);
     (1, [Str "X"; Str "Nirvana"; Float (401 # 2)])]
  /\ map fst (attempts songplay_table_insert
                (trace (process_log_file read_more
                          (loaded_cursor [false; false; true]) "log.json")))
     = succeeded song_select
         (trace (process_log_file read_more
                   (loaded_cursor [false; false; true]) "log.json")).
Proof.
  exact (proj2 (songplay_lookups_in_line_order read_more
                  (loaded_cursor [false; false; true]) "log.json" log_frame _
                  eq_refl eq_refl eq_refl eq_refl eq_refl eq_refl eq_refl)).
Defined.

(** X16 -- a log file that lacks sessionId, location or userAgent (the
    checks before the songplay loop do not look at them): no songplay
    insert is ever attempted; the call raises AttributeError as soon as
    one lookup succeeds, and returns only if every lookup failed. *)
Theorem log_file_without_songplay_attribute read_json cur filepath df conv :
  read_json filepath = Some df ->
  has_column (columns df) "ts" = true ->
  convert_column "ts" (rows df) = inr conv ->
  has_column (columns df) "page" = true ->
  forallb (has_column (columns df)) user_columns = true ->
  forallb (has_column (columns df)) ["artist"; "song"; "length"] = true ->
  forallb (has_column (columns df)) songplay_attributes = false ->
  attempts songplay_table_insert
    (trace (process_log_file read_json cur filepath)) = []
  /\ ((result (process_log_file read_json cur filepath) = Returned
       /\ succeeded song_select
            (trace (process_log_file read_json cur filepath)) = [])
      \/ exists name i,
           result (process_log_file read_json cur filepath)
           = Raised (AttributeError name)
           /\ succeeded song_select
                (trace (process_log_file read_json cur filepath)) = [i]).
Proof.
  intros Hread Hts Hconv Hpage Hcols Hsong Hattrs.
  unfold process_log_file. rewrite Hread, Hts, Hconv. cbn [negb columns].
  rewrite Hpage. cbn [negb].
  pose proof (fun q => insert_time_records_attempts cur
                (time_df (mkDataFrame (columns df) conv)) q) as Htime.
  destruct (insert_time_records cur (time_df (mkDataFrame (columns df) conv)))
    as [cur1 tr1]. cbn [snd] in Htime.
  unfold getitem_columns. cbn [columns]. rewrite Hcols.
  match goal with
  | |- context [insert_user_records cur1 ?c ?r] =>
      pose proof (fun q => insert_user_records_attempts cur1 c r q) as Husers;
      destruct (insert_user_records cur1 c r) as [cur2 tr2]
  end.
  cbn [snd] in Husers.
  unfold dropna. cbn [columns]. rewrite Hsong.
  unfold boolean_mask. cbn [columns rows].
  match goal with
  | |- context [insert_songplay_records cur2 ?c ?r] =>
      destruct (songplay_loop_stops cur2 c r Hattrs) as [H1 H2]
  end.
  cbn [result trace].
  rewrite !attempts_app, !succeeded_app.
  rewrite (succeeded_nil song_select tr1) by (rewrite Htime; reflexivity).
  rewrite (succeeded_nil song_select tr2) by (rewrite Husers; reflexivity).
  rewrite !Htime, !Husers. cbn [query_eqb app].
  split; [exact H1|exact H2].
Qed.

Lemma log_file_without_songplay_attribute_witness :
  attempts songplay_table_insert
    (trace (process_log_file read_more (loaded_cursor []) "no_session.json"))
  = []
  /\ result (process_log_file read_more (loaded_cursor []) "no_session.json")
     = Raised (AttributeError "sessionId").
Proof.
  split.
  - exact (proj1 (log_file_without_songplay_attribute read_more
                    (loaded_cursor []) "no_session.json" no_session_frame _
                    eq_refl eq_refl eq_refl eq_refl eq_refl eq_refl eq_refl)).
  - reflexivity.
Defined.

Lemma logged_as_failed_app (tr1 tr2 : list event) :
  logged_as_failed tr1 -> logged_as_failed tr2 ->
  logged_as_failed (tr1 ++ tr2).
Proof.
  unfold logged_as_failed, warnings, failures. intros H1 H2.
  rewrite !filter_app, !length_app. lia.
Qed.

Lemma insert_time_records_logged cur records :
  logged_as_failed (snd (insert_time_records cur records)).
Proof.
  revert cur. induction records as [|[i rec] records IH]; intros cur; cbn;
    [reflexivity|].
  destruct (execute time_table_insert rec cur) as [cur1 ok].
  specialize (IH cur1). destruct (insert_time_records cur1 records) as [cur2 tr].
  unfold logged_as_failed, warnings, failures in *. destruct ok; cbn in *; lia.
Qed.

Lemma insert_user_records_logged cur cols records :
  logged_as_failed (snd (insert_user_records cur cols records)).
Proof.
  revert cur. induction records as [|[i r] records IH]; intros cur; cbn;
    [reflexivity|].
  destruct (execute user_table_insert (tolist cols r) cur) as [cur1 ok].
  specialize (IH cur1).
  destruct (insert_user_records cur1 cols records) as [cur2 tr].
  unfold logged_as_failed, warnings, failures in *. destruct ok; cbn in *; lia.
Qed.

Lemma insert_songplay_records_logged cur cols records :
  logged_as_failed (trace (insert_songplay_records cur cols records)).
Proof.
  revert cur. induction records as [|[i r] records IH]; intros cur; cbn;
    [reflexivity|].
  destruct (execute song_select _ cur) as [cur1 found]. destruct found.
  - destruct (fetchone cur1) as [res cur2].
    destruct (resolved_ids res) as [songid artistid].
    destruct (songplay_data cols r songid artistid) as [e|data];
      [reflexivity|].
    destruct (execute songplay_table_insert data cur2) as [cur3 ok].
    specialize (IH cur3). unfold logged_as_failed, warnings, failures in *.
    destruct ok; cbn in *; lia.
  - specialize (IH cur1). unfold logged_as_failed, warnings, failures in *. cbn in *. lia.
Qed.

(** X17 -- in the run on a log file that has the five user columns,
    every statement that the store refused is logged and nothing else
    is: the trace holds as many warnings as failed statements, whether
    the call returns or raises. *)
Theorem log_file_failures_are_logged read_json cur filepath df :
  read_json filepath = Some df ->
  forallb (has_column (columns df)) user_columns = true ->
  List.length (warnings (trace (process_log_file read_json cur filepath)))
  = List.length (failures (trace (process_log_file read_json cur filepath))).
Proof.
  intros Hread Hcols. fold (logged_as_failed
                              (trace (process_log_file read_json cur filepath))).
  unfold process_log_file. rewrite Hread.
  destruct (negb (has_column (columns df) "ts")); [reflexivity|].
  destruct (convert_column "ts" (rows df)) as [e|conv]; [reflexivity|].
  cbn [columns].
  destruct (negb (has_column (columns df) "page")); [reflexivity|].
  pose proof (insert_time_records_logged cur
                (time_df (mkDataFrame (columns df) conv))) as H1.
  destruct (insert_time_records cur (time_df (mkDataFrame (columns df) conv)))
    as [cur1 tr1]. cbn [snd] in H1.
  unfold getitem_columns. cbn [columns]. rewrite Hcols.
  match goal with
  | |- context [insert_user_records cur1 ?c ?r] =>
      pose proof (insert_user_records_logged cur1 c r) as H2;
      destruct (insert_user_records cur1 c r) as [cur2 tr2]
  end.
  cbn [snd] in H2.
  destruct (dropna (mkDataFrame (columns df) conv) ["artist"; "song"; "length"])
    as [played|]; cbn [trace].
  - repeat apply logged_as_failed_app; auto.
    apply insert_songplay_records_logged.
  - now apply logged_as_failed_app.
Qed.

Lemma log_file_failures_are_logged_witness :
  List.length (warnings (trace (process_log_file read_more
                                  (loaded_cursor [true; false; true; false; true])
                                  "log.json")))
  = 3%nat.
Proof.
  rewrite (log_file_failures_are_logged read_more
             (loaded_cursor [true; false; true; false; true]) "log.json"
             log_frame eq_refl eq_refl).
  reflexivity.
Defined.

End LogFileMoreFacts.

Module TimeBucketMoreFacts.
Import Calendar CalendarFacts Pandas Etl TimeBucketFacts.

Lemma isocalendar_week_bounds (n : Z) :
  1 <= snd (fst (isocalendar n)) <= 53.
Proof.
  destruct (isocalendar_iso8601 n) as [[H1 H2] H3].
  set (y := fst (fst (isocalendar n))) in *.
  pose proof (iso_week1_start_near y).
  pose proof (iso_week1_start_near (y + 1)).
  pose proof (year_length y).
  rewrite H3. Z.div_mod_to_equations. lia.
Qed.

Lemma month_of_bounds (n : Z) : 1 <= month_of n <= 12.
Proof.
  unfold month_of, ord2ymd, DI400Y, DI100Y, DI4Y. cbv zeta.
  destruct (((n - 1) mod 146097 mod 36524 mod 1461 / 365 =? 4)
            || ((n - 1) mod 146097 / 36524 =? 4))%bool; [cbn; lia|].
  set (d := (n - 1) mod 146097 mod 36524 mod 1461 mod 365).
  assert (Hd : 0 <= d < 365) by (apply Z.mod_pos_bound; lia).
  set (leap := (((n - 1) mod 146097 mod 36524 mod 1461 / 365 =? 3)
                && (negb ((n - 1) mod 146097 mod 36524 / 1461 =? 24)
                    || ((n - 1) mod 146097 / 36524 =? 3)))%bool).
  assert (Hm : 1 <= (d + 50) / 32 <= 12) by (Z.div_mod_to_equations; lia).
  destruct (Z.eq_dec ((d + 50) / 32) 1) as [E|E].
  - rewrite E. cbn [days_before_month_common Z.ltb Z.compare andb Pos.compare
                      Pos.compare_cont].
    change (2 <? 1) with false. cbn [andb]. rewrite Z.add_0_r.
    destruct (d <? 0) eqn:Hneg; [apply Z.ltb_lt in Hneg; lia|]. cbn. lia.
  - match goal with
    | |- context [if ?c then _ else _] => destruct c
    end; cbn [fst snd]; lia.
Qed.

(** X18 -- the columns of a time record: for every timestamp the hour is
    in 0..23, the week in 1..53, the month in 1..12 and the weekday in
    0..6; the day column is the weekday plus one, and the ISO year is the
    calendar year or one of its two neighbours. *)
Theorem time_data_ranges (ms : Z) :
  exists hour day week month year weekday,
    time_data (Timestamp ms)
    = [Timestamp ms; Int hour; Int day; Int week; Int month; Int year;
       Int weekday]
    /\ 0 <= hour <= 23
    /\ 1 <= week <= 53
    /\ 1 <= month <= 12
    /\ 0 <= weekday <= 6
    /\ day = weekday + 1
    /\ year_of (toordinal ms) - 1 <= year <= year_of (toordinal ms) + 1.
Proof.
  do 6 eexists. split; [reflexivity|].
  split; [unfold MS_PER_DAY, MS_PER_HOUR; Z.div_mod_to_equations; lia|].
  split.
  { apply isocalendar_week_bounds. }
  split; [apply month_of_bounds|].
  split; [unfold weekday; Z.div_mod_to_equations; lia|].
  split; [apply isocalendar_day_weekday|].
  unfold isocalendar. cbv zeta.
  destruct ((toordinal ms - isoweek1monday (year_of (toordinal ms))) / 7 <? 0);
    [cbn [fst snd]; lia|].
  match goal with
  | |- context [if ?c then _ else _] => destruct c
  end; cbn [fst snd]; lia.
Qed.

End TimeBucketMoreFacts.
